(** * Best-fit plane alignment (best_fit_plane_metashape.py)

    A shallow embedding of the alignment script: centring of the mesh at the
    origin, PCA normal extraction, Rodrigues rotation, and the update of the
    chunk transform.  NumPy's float64 arithmetic is read as exact arithmetic
    over the real numbers [R]; every statement below is about that reading. *)

From Stdlib Require Import String Reals Lra Psatz RNsatz List Permutation.
Import ListNotations.

Open Scope R_scope.

(** ** Vectors and matrices *)

(** A length-3 array; [c0 v], [c1 v], [c2 v] are [v[0]], [v[1]], [v[2]]. *)
Record Vec3 : Type := mkVec3 { c0 : R; c1 : R; c2 : R }.

(** A 3x3 array, stored by rows: [r0 M] is [M[0, :]]. *)
Record Mat3 : Type := mkMat3 { r0 : Vec3; r1 : Vec3; r2 : Vec3 }.

(** A length-4 array (homogeneous coordinates). *)
Record Vec4 : Type := mkVec4 { h0 : R; h1 : R; h2 : R; h3 : R }.

(** [Metashape.Matrix] of size 4x4, stored by rows. *)
Record Mat4 : Type := mkMat4 { q0 : Vec4; q1 : Vec4; q2 : Vec4; q3 : Vec4 }.

(** ** The NumPy operations the script uses *)

Module np.

(** Element-wise [u + v], [u - v], [-u], [u * k] and [u / k] on length-3 arrays. *)
Definition add (u v : Vec3) : Vec3 :=
  mkVec3 (c0 u + c0 v) (c1 u + c1 v) (c2 u + c2 v).

Definition sub (u v : Vec3) : Vec3 :=
  mkVec3 (c0 u - c0 v) (c1 u - c1 v) (c2 u - c2 v).

Definition neg (u : Vec3) : Vec3 := mkVec3 (- c0 u) (- c1 u) (- c2 u).

Definition scale (u : Vec3) (k : R) : Vec3 :=
  mkVec3 (c0 u * k) (c1 u * k) (c2 u * k).

Definition divide (u : Vec3) (k : R) : Vec3 :=
  mkVec3 (c0 u / k) (c1 u / k) (c2 u / k).

Definition zeros3 : Vec3 := mkVec3 0 0 0.

(** [np.dot] and [np.cross] on length-3 arrays. *)
Definition dot (u v : Vec3) : R := c0 u * c0 v + c1 u * c1 v + c2 u * c2 v.

Definition cross (u v : Vec3) : Vec3 :=
  mkVec3 (c1 u * c2 v - c2 u * c1 v)
         (c2 u * c0 v - c0 u * c2 v)
         (c0 u * c1 v - c1 u * c0 v).

(** [np.linalg.norm] of a length-3 array: the Euclidean norm. *)
Definition linalg_norm (v : Vec3) : R := sqrt (dot v v).

(** [np.eye(3)]. *)
Definition eye3 : Mat3 := mkMat3 (mkVec3 1 0 0) (mkVec3 0 1 0) (mkVec3 0 0 1).

(** [M[:, 0]], [M[:, 1]], [M[:, 2]]. *)
Definition col0 (M : Mat3) : Vec3 := mkVec3 (c0 (r0 M)) (c0 (r1 M)) (c0 (r2 M)).
Definition col1 (M : Mat3) : Vec3 := mkVec3 (c1 (r0 M)) (c1 (r1 M)) (c1 (r2 M)).
Definition col2 (M : Mat3) : Vec3 := mkVec3 (c2 (r0 M)) (c2 (r1 M)) (c2 (r2 M)).

Definition transpose (M : Mat3) : Mat3 := mkMat3 (col0 M) (col1 M) (col2 M).

(** Element-wise [A + B] and [A * k] on 3x3 arrays. *)
Definition madd (A B : Mat3) : Mat3 :=
  mkMat3 (add (r0 A) (r0 B)) (add (r1 A) (r1 B)) (add (r2 A) (r2 B)).

Definition mscale (A : Mat3) (k : R) : Mat3 :=
  mkMat3 (scale (r0 A) k) (scale (r1 A) k) (scale (r2 A) k).

(** [A @ v] and [A @ B]. *)
Definition matvec (A : Mat3) (v : Vec3) : Vec3 :=
  mkVec3 (dot (r0 A) v) (dot (r1 A) v) (dot (r2 A) v).

Definition matmul (A B : Mat3) : Mat3 :=
  mkMat3 (mkVec3 (dot (r0 A) (col0 B)) (dot (r0 A) (col1 B)) (dot (r0 A) (col2 B)))
         (mkVec3 (dot (r1 A) (col0 B)) (dot (r1 A) (col1 B)) (dot (r1 A) (col2 B)))
         (mkVec3 (dot (r2 A) (col0 B)) (dot (r2 A) (col1 B)) (dot (r2 A) (col2 B))).

Definition det (A : Mat3) : R := dot (r0 A) (cross (r1 A) (r2 A)).

(** The sum of the rows of an N x 3 array, accumulated from the first row on. *)
Fixpoint sum_rows (rows : list Vec3) : Vec3 :=
  match rows with
  | [] => zeros3
  | p :: rest => add p (sum_rows rest)
  end.

(** [np.mean(points, axis=0)]: the sum of the rows divided by their number. *)
Definition mean (points : list Vec3) : Vec3 :=
  divide (sum_rows points) (INR (length points)).

(** [points - centroid]: the row vector is broadcast over the rows. *)
Definition sub_rows (points : list Vec3) (centroid : Vec3) : list Vec3 :=
  map (fun p => sub p centroid) points.

(** The outer product [u u^T] as a 3x3 array. *)
Definition outer (u : Vec3) : Mat3 :=
  mkMat3 (scale u (c0 u)) (scale u (c1 u)) (scale u (c2 u)).

Definition mzeros : Mat3 := mkMat3 zeros3 zeros3 zeros3.

(** [X^T X] for an N x 3 array [X], as the sum of the outer products of its rows. *)
Fixpoint gram (rows : list Vec3) : Mat3 :=
  match rows with
  | [] => mzeros
  | p :: rest => madd (outer p) (gram rest)
  end.

(** [np.cov(m, rowvar=False)]: columns are variables and rows observations.
    NumPy subtracts the column means again and normalises by [N - 1]
    (the default [ddof = 1]). *)
Definition cov (m : list Vec3) : Mat3 :=
  let X := sub_rows m (mean m) in
  mscale (gram X) (/ (INR (length m) - 1)).

End np.

(** ** The Metashape matrix operations the script uses *)

Module Metashape.

Definition hdot (u v : Vec4) : R :=
  h0 u * h0 v + h1 u * h1 v + h2 u * h2 v + h3 u * h3 v.

Definition hcol0 (M : Mat4) : Vec4 := mkVec4 (h0 (q0 M)) (h0 (q1 M)) (h0 (q2 M)) (h0 (q3 M)).
Definition hcol1 (M : Mat4) : Vec4 := mkVec4 (h1 (q0 M)) (h1 (q1 M)) (h1 (q2 M)) (h1 (q3 M)).
Definition hcol2 (M : Mat4) : Vec4 := mkVec4 (h2 (q0 M)) (h2 (q1 M)) (h2 (q2 M)) (h2 (q3 M)).
Definition hcol3 (M : Mat4) : Vec4 := mkVec4 (h3 (q0 M)) (h3 (q1 M)) (h3 (q2 M)) (h3 (q3 M)).

Definition hrow (u : Vec4) (B : Mat4) : Vec4 :=
  mkVec4 (hdot u (hcol0 B)) (hdot u (hcol1 B)) (hdot u (hcol2 B)) (hdot u (hcol3 B)).

(** [A * B] on [Metashape.Matrix]: the matrix product. *)
Definition mul (A B : Mat4) : Mat4 :=
  mkMat4 (hrow (q0 A) B) (hrow (q1 A) B) (hrow (q2 A) B) (hrow (q3 A) B).

(** [Metashape.Matrix.Translation(v)]: the homogeneous translation by [v]. *)
Definition Translation (v : Vec3) : Mat4 :=
  mkMat4 (mkVec4 1 0 0 (c0 v))
         (mkVec4 0 1 0 (c1 v))
         (mkVec4 0 0 1 (c2 v))
         (mkVec4 0 0 0 1).

(** The 4x4 identity matrix. *)
Definition Diag1 : Mat4 :=
  mkMat4 (mkVec4 1 0 0 0) (mkVec4 0 1 0 0) (mkVec4 0 0 1 0) (mkVec4 0 0 0 1).

(** [M.mulp(p)]: the point [p] is given the homogeneous coordinate 1 and
    multiplied by [M]; the first three coordinates are the transformed
    point.  The matrices the script builds have last row [0 0 0 1], for which
    the fourth coordinate of the product is 1. *)
Definition mulp (M : Mat4) (p : Vec3) : Vec3 :=
  let ph := mkVec4 (c0 p) (c1 p) (c2 p) 1 in
  mkVec3 (hdot (q0 M) ph) (hdot (q1 M) ph) (hdot (q2 M) ph).

(** A matrix whose last row is [0 0 0 1]. *)
Definition affine (M : Mat4) : Prop := q3 M = mkVec4 0 0 0 1.

End Metashape.

(** ** The script *)

(** The scene objects the script reads: a vertex with its [coord], a model
    with its [vertices], and the chunk with its [models] ([None] when the
    attribute is absent) and its [transform.matrix]. *)
Record Vertex : Type := mkVertex { coord : Vec3 }.

Record Model : Type := mkModel { vertices : list Vertex }.

Record Chunk : Type := mkChunk {
  models : option (list Model);
  transform_matrix : Mat4
}.

Definition set_transform_matrix (chunk : Chunk) (M : Mat4) : Chunk :=
  mkChunk (models chunk) M.

(** How a run of the script ends: [raise Exception(msg)], or the last
    statement is reached, with the [final_centroid] it printed. *)
Inductive Outcome : Type :=
| Raised (msg : string)
| Completed (final_centroid : Vec3).

Definition NoMeshError : Outcome := Raised "No mesh found in the chunk.".

(** The exception of line 45, which the specification calls
    InsufficientDataError. *)
Definition InsufficientDataError : Outcome :=
  Raised "Not enough vertices to compute a plane.".

(** [target_vector = np.array([0, 0, 1])]. *)
Definition target_vector : Vec3 := mkVec3 0 0 1.

(** The cross-product matrix [vx] of lines 95-97. *)
Definition skew (v : Vec3) : Mat3 :=
  mkMat3 (mkVec3 0 (- c2 v) (c1 v))
         (mkVec3 (c2 v) 0 (- c0 v))
         (mkVec3 (- c1 v) (c0 v) 0).

(** Lines 80-81: [if normal_vector[2] < 0: normal_vector = -normal_vector]. *)
Definition canonicalize (normal_vector : Vec3) : Vec3 :=
  if Rlt_dec (c2 normal_vector) 0 then np.neg normal_vector else normal_vector.

(** Lines 87-98: the rotation stage, as a function of the two vectors it reads. *)
Definition rotation (normal_vector target_vector : Vec3) : Mat3 :=
  let v := np.cross normal_vector target_vector in
  let s := np.linalg_norm v in
  if Req_dec_T s 0 then np.eye3
  else
    let c := np.dot normal_vector target_vector in
    let vx := skew v in
    np.madd (np.madd np.eye3 vx) (np.mscale (np.matmul vx vx) ((1 - c) / s ^ 2)).

(** A quotient that records a zero divisor instead of evaluating it. *)
Definition checked_div (a b : R) : option R :=
  if Req_dec_T b 0 then None else Some (a / b).

(** The rotation stage with its one division checked: [None] stands for a
    run in which [(1 - c) / s**2] is evaluated with [s**2 == 0]. *)
Definition rotation_checked (normal_vector target_vector : Vec3) : option Mat3 :=
  let v := np.cross normal_vector target_vector in
  let s := np.linalg_norm v in
  if Req_dec_T s 0 then Some np.eye3
  else
    let c := np.dot normal_vector target_vector in
    let vx := skew v in
    match checked_div (1 - c) (s ^ 2) with
    | None => None
    | Some k => Some (np.madd (np.madd np.eye3 vx) (np.mscale (np.matmul vx vx) k))
    end.

(** The closed form [I + K + K^2 k] for the cross-product matrix [K] of [v]. *)
Definition rodrigues_form (v : Vec3) (k : R) : Mat3 :=
  let K := skew v in
  np.madd (np.madd np.eye3 K) (np.mscale (np.matmul K K) k).

(** Lines 101-104: the 3x3 array placed in a 4x4 [Metashape.Matrix]. *)
Definition to_Matrix (A : Mat3) : Mat4 :=
  mkMat4 (mkVec4 (c0 (r0 A)) (c1 (r0 A)) (c2 (r0 A)) 0)
         (mkVec4 (c0 (r1 A)) (c1 (r1 A)) (c2 (r1 A)) 0)
         (mkVec4 (c0 (r2 A)) (c1 (r2 A)) (c2 (r2 A)) 0)
         (mkVec4 0 0 0 1).

(** What the documentation of [np.linalg.eigh] promises of its result
    [(w, V)] on a symmetric matrix [A]: the eigenvalues [w] are in ascending
    order, and column [V[:, i]] is a normalized eigenvector for [w[i]], the
    columns being orthonormal. *)
Definition eigh_result (A : Mat3) (res : Vec3 * Mat3) : Prop :=
  let w := fst res in
  let V := snd res in
  c0 w <= c1 w /\ c1 w <= c2 w /\
  np.matvec A (np.col0 V) = np.scale (np.col0 V) (c0 w) /\
  np.matvec A (np.col1 V) = np.scale (np.col1 V) (c1 w) /\
  np.matvec A (np.col2 V) = np.scale (np.col2 V) (c2 w) /\
  np.matmul (np.transpose V) V = np.eye3.

Definition symmetric (A : Mat3) : Prop := np.transpose A = A.

Section Script.

(** [np.linalg.eigh], the LAPACK symmetric eigensolver: a function of the
    matrix, returning the pair (eigenvalues, eigenvectors). *)
Variable eigh : Mat3 -> Vec3 * Mat3.

(** Line 58. *)
Definition centroid (points : list Vec3) : Vec3 := np.mean points.

(** Line 62. *)
Definition T (points : list Vec3) : Mat4 :=
  Metashape.Translation (np.neg (centroid points)).

(** Line 68. *)
Definition centered_points (points : list Vec3) : list Vec3 :=
  np.sub_rows points (centroid points).

(** Line 71. *)
Definition cov (points : list Vec3) : Mat3 := np.cov (centered_points points).

(** Lines 74 and 77: [eigenvectors[:, 0]], the normal before its sign is fixed. *)
Definition eigenvector0 (points : list Vec3) : Vec3 :=
  np.col0 (snd (eigh (cov points))).

(** Lines 77-81. *)
Definition normal_vector (points : list Vec3) : Vec3 :=
  canonicalize (eigenvector0 points).

(** Lines 84-98: the array the script calls [R] (the name [R] is the type of
    the real numbers here). *)
Definition R_ (points : list Vec3) : Mat3 :=
  rotation (normal_vector points) target_vector.

(** Lines 101-104. *)
Definition R_matrix (points : list Vec3) : Mat4 := to_Matrix (R_ points).

(** The transform the script left-multiplies onto the chunk transform over
    lines 63 and 107 taken together. *)
Definition computeAlignment (points : list Vec3) : Mat4 :=
  Metashape.mul (R_matrix points) (T points).

(** The points after that transform has been applied to each of them. *)
Definition aligned_points (points : list Vec3) : list Vec3 :=
  map (Metashape.mulp (computeAlignment points)) points.

(** Lines 48-52 and 116-120: the vertices in world space. *)
Definition world_points (chunk : Chunk) (vs : list Vertex) : list Vec3 :=
  map (fun vertex => Metashape.mulp (transform_matrix chunk) (coord vertex)) vs.

(** The whole script, from the chunk it finds to the chunk it leaves and the
    way it ends.  The [print] calls and [chunk.resetRegion()], which do not
    touch [chunk.transform.matrix], are left out. *)
Definition script (chunk : Chunk) : Chunk * Outcome :=
  match models chunk with
  | None | Some [] => (chunk, NoMeshError)
  | Some (model :: _) =>
      let vertices := vertices model in
      if (length vertices <? 3)%nat then (chunk, InsufficientDataError)
      else
        let points := world_points chunk vertices in
        let chunk1 :=
          set_transform_matrix chunk
            (Metashape.mul (T points) (transform_matrix chunk)) in
        let chunk2 :=
          set_transform_matrix chunk1
            (Metashape.mul (R_matrix points) (transform_matrix chunk1)) in
        let final_points := world_points chunk2 vertices in
        (chunk2, Completed (np.mean final_points))
  end.

End Script.


(** ** Sample inputs *)

(** The corners of a unit square in the plane z = 5, and the same corners
    taken in another order. *)
Definition square_z5 : list Vec3 :=
  [mkVec3 0 0 5; mkVec3 1 0 5; mkVec3 1 1 5; mkVec3 0 1 5].

Definition square_z5_reordered : list Vec3 :=
  [mkVec3 1 0 5; mkVec3 0 0 5; mkVec3 0 1 5; mkVec3 1 1 5].

(** Four points of the plane x = 3. *)
Definition square_x3 : list Vec3 :=
  [mkVec3 3 0 0; mkVec3 3 1 0; mkVec3 3 0 1; mkVec3 3 1 1].

(** The eigenvectors of a diagonal matrix whose least entry is the third:
    columns [(0,0,1)], [(1,0,0)], [(0,1,0)]. *)
Definition axes_zxy : Mat3 := mkMat3 (mkVec3 0 1 0) (mkVec3 0 0 1) (mkVec3 1 0 0).

(** An eigensolver for the covariance matrices of the two sample squares,
    [diag(0, 1/3, 1/3)] and [diag(1/3, 1/3, 0)]. *)
Definition eigh_squares (A : Mat3) : Vec3 * Mat3 :=
  if Req_dec_T (c0 (r0 A)) 0
  then (mkVec3 0 (1 / 3) (1 / 3), np.eye3)
  else (mkVec3 0 (1 / 3) (1 / 3), axes_zxy).

(** A chunk whose only model has two vertices. *)
Definition chunk_two_vertices : Chunk :=
  mkChunk (Some [mkModel [mkVertex (mkVec3 0 0 0); mkVertex (mkVec3 1 0 0)]])
          Metashape.Diag1.

(** A chunk whose model is the unit square at z = 5, under the identity
    transform. *)
Definition chunk_square_z5 : Chunk :=
  mkChunk (Some [mkModel (map mkVertex square_z5)]) Metashape.Diag1.

(** ** Eigenvectors *)

(** Three orthonormal vectors [e0], [e1], [e2] that are eigenvectors of [A]
    for the entries of [w], given in ascending order. *)
Definition eigenbasis (A : Mat3) (w e0 e1 e2 : Vec3) : Prop :=
  c0 w <= c1 w /\ c1 w <= c2 w /\
  np.matvec A e0 = np.scale e0 (c0 w) /\
  np.matvec A e1 = np.scale e1 (c1 w) /\
  np.matvec A e2 = np.scale e2 (c2 w) /\
  np.dot e0 e0 = 1 /\ np.dot e1 e1 = 1 /\ np.dot e2 e2 = 1 /\
  np.dot e0 e1 = 0 /\ np.dot e0 e2 = 0 /\ np.dot e1 e2 = 0.

(** A chunk without the [models] attribute, a chunk whose model is the
    square in the plane x = 3, and that chunk with a second model after it. *)
Definition chunk_no_models : Chunk := mkChunk None Metashape.Diag1.

Definition chunk_square_x3 : Chunk :=
  mkChunk (Some [mkModel (map mkVertex square_x3)]) Metashape.Diag1.

Definition chunk_square_x3_two_models : Chunk :=
  mkChunk (Some [mkModel (map mkVertex square_x3); mkModel (map mkVertex square_z5)])
          Metashape.Diag1.

(** The eigensolver of the sample squares under the opposite sign
    convention for the first eigenvector. *)
Definition flip_col0 (V : Mat3) : Mat3 :=
  mkMat3 (mkVec3 (- c0 (r0 V)) (c1 (r0 V)) (c2 (r0 V)))
         (mkVec3 (- c0 (r1 V)) (c1 (r1 V)) (c2 (r1 V)))
         (mkVec3 (- c0 (r2 V)) (c1 (r2 V)) (c2 (r2 V))).

Definition eigh_squares_flipped (A : Mat3) : Vec3 * Mat3 :=
  (fst (eigh_squares A), flip_col0 (snd (eigh_squares A))).

(** ** The script with a failing eigensolver *)

(** [numpy.linalg.LinAlgError], which [np.linalg.eigh] raises at line 74
    when the eigenvalue computation does not converge. *)
Definition LinAlgError : Outcome := Raised "Eigenvalues did not converge".

(** The script with [np.linalg.eigh] allowed to raise: [eigh_try A] is
    [None] when the call of line 74 raises on [A], and the pair it returns
    otherwise.  The call comes after line 63 has written [T * matrix], so a
    raise there leaves the chunk with the translation applied.  As in
    [script], the [print] calls are left out, and so is
    [chunk.resetRegion()], which rewrites the region of the chunk, a part of
    the scene that [Chunk] does not record. *)
Definition script_raising (eigh_try : Mat3 -> option (Vec3 * Mat3))
    (chunk : Chunk) : Chunk * Outcome :=
  match models chunk with
  | None | Some [] => (chunk, NoMeshError)
  | Some (model :: _) =>
      let vertices := vertices model in
      if (length vertices <? 3)%nat then (chunk, InsufficientDataError)
      else
        let points := world_points chunk vertices in
        let chunk1 :=
          set_transform_matrix chunk
            (Metashape.mul (T points) (transform_matrix chunk)) in
        match eigh_try (cov points) with
        | None => (chunk1, LinAlgError)
        | Some res =>
            let eigh := fun _ : Mat3 => res in
            let chunk2 :=
              set_transform_matrix chunk1
                (Metashape.mul (R_matrix eigh points) (transform_matrix chunk1)) in
            let final_points := world_points chunk2 vertices in
            (chunk2, Completed (np.mean final_points))
        end
  end.

(** An eigensolver that raises on every matrix, and one that never does on
    the sample squares. *)
Definition eigh_try_fails (A : Mat3) : option (Vec3 * Mat3) := None.

Definition eigh_try_squares (A : Mat3) : option (Vec3 * Mat3) :=
  Some (eigh_squares A).
(** ** Extensionality of the records *)

Lemma Vec3_eq (u v : Vec3) :
  c0 u = c0 v -> c1 u = c1 v -> c2 u = c2 v -> u = v.
Proof. destruct u, v; simpl; intros; subst; reflexivity. Qed.

Lemma Mat3_eq (A B : Mat3) :
  r0 A = r0 B -> r1 A = r1 B -> r2 A = r2 B -> A = B.
Proof. destruct A, B; simpl; intros; subst; reflexivity. Qed.

Lemma Vec4_eq (u v : Vec4) :
  h0 u = h0 v -> h1 u = h1 v -> h2 u = h2 v -> h3 u = h3 v -> u = v.
Proof. destruct u, v; simpl; intros; subst; reflexivity. Qed.

Lemma Mat4_eq (A B : Mat4) :
  q0 A = q0 B -> q1 A = q1 B -> q2 A = q2 B -> q3 A = q3 B -> A = B.
Proof. destruct A, B; simpl; intros; subst; reflexivity. Qed.

(** ** Linear algebra of the arrays *)

(** Unfolds the array operations down to arithmetic on the entries; the
    vectors in the goal are to be given by their entries beforehand. *)
Ltac np_red :=
  cbv [np.divide np.matvec np.matmul np.madd np.mscale np.transpose
       np.col0 np.col1 np.col2 np.outer np.det np.cross np.dot np.add np.sub
       np.neg np.scale np.zeros3 np.mzeros np.eye3 skew
       c0 c1 c2 r0 r1 r2] in *.

Ltac vec3_ext := apply Vec3_eq; np_red.
Ltac mat3_ext := apply Mat3_eq; vec3_ext.

(** Evaluates the covariance matrix of a sample point list. *)
Ltac cov_eval :=
  cbv [cov centered_points centroid np.cov np.mean np.sub_rows np.sum_rows
       np.gram map length square_z5 square_x3 INR];
  mat3_ext; field.

(** Checks an explicit eigendecomposition entry by entry. *)
Ltac eigh_result_eval :=
  unfold eigh_result; cbn [fst snd]; unfold axes_zxy;
  repeat split; try (cbn [c0 c1 c2]; lra); try (vec3_ext; ring); try (mat3_ext; ring).

Lemma sum_rows_app (xs ys : list Vec3) :
  np.sum_rows (xs ++ ys) = np.add (np.sum_rows xs) (np.sum_rows ys).
Proof.
  induction xs as [|p xs IH]; simpl.
  - destruct (np.sum_rows ys); vec3_ext; ring.
  - rewrite IH. destruct p, (np.sum_rows xs), (np.sum_rows ys). vec3_ext; ring.
Qed.

(** The sum of the rows after a matrix has been applied to each row shifted
    by a common vector. *)
Lemma sum_rows_affine (A : Mat3) (b : Vec3) (rows : list Vec3) :
  np.sum_rows (map (fun p => np.matvec A (np.sub p b)) rows) =
  np.matvec A (np.sub (np.sum_rows rows) (np.scale b (INR (length rows)))).
Proof.
  induction rows as [|p rows IH].
  - simpl. destruct A as [[] [] []], b. vec3_ext; ring.
  - change (length (p :: rows)) with (Datatypes.S (length rows)).
    rewrite S_INR. simpl map. simpl np.sum_rows. rewrite IH.
    destruct A as [[] [] []], b, p, (np.sum_rows rows). vec3_ext; ring.
Qed.

Lemma INR_length_pos {A : Type} (l : list A) :
  (1 <= length l)%nat -> 0 < INR (length l).
Proof. intros H. apply lt_0_INR. exact H. Qed.

(** The rows sum to zero once their mean has been subtracted. *)
Lemma sum_rows_centered (rows : list Vec3) :
  (1 <= length rows)%nat ->
  np.sub (np.sum_rows rows) (np.scale (np.mean rows) (INR (length rows))) = np.zeros3.
Proof.
  intros H. apply INR_length_pos in H. unfold np.mean.
  destruct (np.sum_rows rows). vec3_ext; field; lra.
Qed.

Lemma matvec_zeros3 (A : Mat3) : np.matvec A np.zeros3 = np.zeros3.
Proof. destruct A as [[] [] []]. vec3_ext; ring. Qed.

Lemma matvec_eye3 (v : Vec3) : np.matvec np.eye3 v = v.
Proof. destruct v. vec3_ext; ring. Qed.

Lemma neg_neg_vec (v : Vec3) : np.neg (np.neg v) = v.
Proof. destruct v. vec3_ext; ring. Qed.

(** ** The matrices handed to Metashape *)

Lemma mulp_Translation (v p : Vec3) :
  Metashape.mulp (Metashape.Translation v) p = np.add p v.
Proof.
  destruct v, p. unfold Metashape.mulp, Metashape.Translation, Metashape.hdot.
  vec3_ext; simpl; ring.
Qed.

Lemma mulp_to_Matrix (A : Mat3) (p : Vec3) :
  Metashape.mulp (to_Matrix A) p = np.matvec A p.
Proof.
  destruct A as [[] [] []], p. unfold Metashape.mulp, to_Matrix, Metashape.hdot.
  vec3_ext; simpl; ring.
Qed.

Lemma mulp_mul (A B : Mat4) (p : Vec3) :
  Metashape.affine B ->
  Metashape.mulp (Metashape.mul A B) p = Metashape.mulp A (Metashape.mulp B p).
Proof.
  unfold Metashape.affine. intros HB.
  destruct A as [[] [] [] []], B as [[] [] [] b3], p. simpl in HB. subst b3.
  unfold Metashape.mulp, Metashape.mul, Metashape.hrow, Metashape.hdot,
    Metashape.hcol0, Metashape.hcol1, Metashape.hcol2, Metashape.hcol3.
  apply Vec3_eq; simpl; ring.
Qed.

Lemma mul_assoc (A B C : Mat4) :
  Metashape.mul A (Metashape.mul B C) = Metashape.mul (Metashape.mul A B) C.
Proof.
  destruct A as [[] [] [] []], B as [[] [] [] []], C as [[] [] [] []].
  cbv [Metashape.mul Metashape.hrow Metashape.hdot Metashape.hcol0
       Metashape.hcol1 Metashape.hcol2 Metashape.hcol3
       q0 q1 q2 q3 h0 h1 h2 h3].
  apply Mat4_eq; apply Vec4_eq; simpl; ring.
Qed.

Lemma affine_Translation (v : Vec3) : Metashape.affine (Metashape.Translation v).
Proof. reflexivity. Qed.

Lemma affine_to_Matrix (A : Mat3) : Metashape.affine (to_Matrix A).
Proof. reflexivity. Qed.

Lemma affine_mul (A B : Mat4) :
  Metashape.affine A -> Metashape.affine B -> Metashape.affine (Metashape.mul A B).
Proof.
  unfold Metashape.affine. intros HA HB.
  destruct A as [a0 a1 a2 a3], B as [b0 b1 b2 b3]. simpl in *. subst.
  unfold Metashape.hrow, Metashape.hdot. apply Vec4_eq; simpl; ring.
Qed.

Lemma mul_to_Matrix_eye3_Translation_zeros3 :
  Metashape.mul (to_Matrix np.eye3) (Metashape.Translation np.zeros3) = Metashape.Diag1.
Proof.
  unfold Metashape.mul, Metashape.hrow, Metashape.hdot, Metashape.Diag1.
  apply Mat4_eq; apply Vec4_eq; simpl; ring.
Qed.

Section Centering.

Variable eigh : Mat3 -> Vec3 * Mat3.

(** The composed transform acts on a point by centring it and then rotating it. *)
Lemma mulp_computeAlignment (points : list Vec3) (p : Vec3) :
  Metashape.mulp (computeAlignment eigh points) p =
  np.matvec (R_ eigh points) (np.sub p (centroid points)).
Proof.
  unfold computeAlignment, R_matrix, T.
  rewrite mulp_mul by apply affine_Translation.
  rewrite mulp_Translation, mulp_to_Matrix.
  reflexivity.
Qed.

Lemma map_mulp_computeAlignment (points qs : list Vec3) :
  map (Metashape.mulp (computeAlignment eigh points)) qs =
  map (fun p => np.matvec (R_ eigh points) (np.sub p (centroid points))) qs.
Proof. apply map_ext. intros p. apply mulp_computeAlignment. Qed.

Lemma sum_rows_aligned (points : list Vec3) :
  (1 <= length points)%nat ->
  np.sum_rows (map (Metashape.mulp (computeAlignment eigh points)) points) = np.zeros3.
Proof.
  intros H. rewrite map_mulp_computeAlignment, sum_rows_affine.
  unfold centroid. rewrite sum_rows_centered by exact H.
  apply matvec_zeros3.
Qed.

End Centering.

(** ** The norm *)

Lemma dot_self_nonneg (v : Vec3) : 0 <= np.dot v v.
Proof. destruct v. np_red. nra. Qed.

Lemma linalg_norm_sq (v : Vec3) : np.linalg_norm v ^ 2 = np.dot v v.
Proof. unfold np.linalg_norm. apply pow2_sqrt. apply dot_self_nonneg. Qed.

Lemma linalg_norm_zero_dot (v : Vec3) :
  np.linalg_norm v = 0 <-> np.dot v v = 0.
Proof.
  unfold np.linalg_norm. split; intros H.
  - apply sqrt_eq_0; [apply dot_self_nonneg | exact H].
  - rewrite H. apply sqrt_0.
Qed.

Lemma dot_self_zero (v : Vec3) : np.dot v v = 0 -> v = np.zeros3.
Proof. destruct v. intros H. vec3_ext; nra. Qed.

(** Lagrange's identity for the cross product. *)
Lemma dot_cross_cross (n t : Vec3) :
  np.dot (np.cross n t) (np.cross n t) =
  np.dot n n * np.dot t t - np.dot n t * np.dot n t.
Proof. destruct n, t. np_red. ring. Qed.

(** ** Sign canonicalization *)

Lemma canonicalize_cases (n : Vec3) :
  (c2 n < 0 /\ canonicalize n = np.neg n) \/ (0 <= c2 n /\ canonicalize n = n).
Proof.
  unfold canonicalize. destruct (Rlt_dec (c2 n) 0) as [Hlt | Hge].
  - left. split; [exact Hlt | reflexivity].
  - right. split; [lra | reflexivity].
Qed.

Lemma canonicalize_c2_nonneg (n : Vec3) : 0 <= c2 (canonicalize n).
Proof.
  destruct (canonicalize_cases n) as [[Hlt ->] | [Hge ->]].
  - destruct n. simpl in *. lra.
  - exact Hge.
Qed.

Lemma dot_neg_neg (u v : Vec3) : np.dot (np.neg u) (np.neg v) = np.dot u v.
Proof. destruct u, v. np_red. ring. Qed.

Lemma canonicalize_dot (n : Vec3) :
  np.dot (canonicalize n) (canonicalize n) = np.dot n n.
Proof.
  destruct (canonicalize_cases n) as [[_ ->] | [_ ->]];
    [apply dot_neg_neg | reflexivity].
Qed.

Lemma matvec_neg (A : Mat3) (v : Vec3) :
  np.matvec A (np.neg v) = np.neg (np.matvec A v).
Proof. destruct A as [[] [] []], v. vec3_ext; ring. Qed.

Lemma scale_neg (v : Vec3) (k : R) : np.scale (np.neg v) k = np.neg (np.scale v k).
Proof. destruct v. vec3_ext; ring. Qed.

(** Negating an eigenvector leaves it an eigenvector for the same eigenvalue. *)
Lemma canonicalize_eigenvector (A : Mat3) (n : Vec3) (lam : R) :
  np.matvec A n = np.scale n lam ->
  np.matvec A (canonicalize n) = np.scale (canonicalize n) lam.
Proof.
  intros H. destruct (canonicalize_cases n) as [[_ ->] | [_ ->]].
  - rewrite matvec_neg, scale_neg, H. reflexivity.
  - exact H.
Qed.

(** ** Rodrigues' formula *)

Lemma rotation_aligned (n t : Vec3) :
  np.linalg_norm (np.cross n t) = 0 -> rotation n t = np.eye3.
Proof.
  intros Hs. unfold rotation.
  destruct (Req_dec_T (np.linalg_norm (np.cross n t)) 0) as [_ | Hne];
    [reflexivity | contradiction].
Qed.

Lemma rotation_rodrigues (n t : Vec3) :
  np.linalg_norm (np.cross n t) <> 0 ->
  rotation n t =
  rodrigues_form (np.cross n t)
    ((1 - np.dot n t) / np.linalg_norm (np.cross n t) ^ 2).
Proof.
  intros Hs. unfold rotation.
  destruct (Req_dec_T (np.linalg_norm (np.cross n t)) 0) as [He | _];
    [contradiction | reflexivity].
Qed.

(** For unit vectors, the factor [(1 - c) / s^2] is [1 / (1 + c)]. *)
Lemma rodrigues_factor (n t : Vec3) :
  np.dot n n = 1 -> np.dot t t = 1 ->
  np.linalg_norm (np.cross n t) <> 0 ->
  (1 - np.dot n t) / np.linalg_norm (np.cross n t) ^ 2 * (1 + np.dot n t) = 1.
Proof.
  intros Hn Ht Hs.
  assert (Hd : np.dot (np.cross n t) (np.cross n t) <> 0).
  { intros H0. apply Hs. apply linalg_norm_zero_dot. exact H0. }
  rewrite linalg_norm_sq. rewrite dot_cross_cross, Hn, Ht in *.
  field. lra.
Qed.

Lemma rodrigues_form_maps (n t : Vec3) (k : R) :
  np.dot n n = 1 -> np.dot t t = 1 -> k * (1 + np.dot n t) = 1 ->
  np.matvec (rodrigues_form (np.cross n t) k) n = t.
Proof.
  destruct n as [a b c], t as [x y z]. unfold rodrigues_form.
  intros Hn Ht Hk. apply Vec3_eq; np_red; nsatz.
Qed.

Lemma rodrigues_form_gram (v : Vec3) (k : R) :
  np.matmul (np.transpose (rodrigues_form v k)) (rodrigues_form v k) =
  np.madd np.eye3
    (np.mscale (np.matmul (skew v) (skew v)) (2 * k - 1 - k * k * np.dot v v)).
Proof.
  destruct v as [a b c]. unfold rodrigues_form.
  apply Mat3_eq; apply Vec3_eq; np_red; ring.
Qed.

Lemma rodrigues_form_det (v : Vec3) (k : R) :
  np.det (rodrigues_form v k) =
  (1 - k * np.dot v v) * (1 - k * np.dot v v) + np.dot v v.
Proof. destruct v as [a b c]. unfold rodrigues_form. np_red. ring. Qed.

Lemma madd_mscale_zero (A B : Mat3) : np.madd A (np.mscale B 0) = A.
Proof. destruct A as [[] [] []], B as [[] [] []]. mat3_ext; ring. Qed.

(** The three properties of the rotation stage on unit vectors, whenever
    the cross product does not vanish. *)
Lemma rotation_unit_nonparallel (n t : Vec3) :
  np.dot n n = 1 -> np.dot t t = 1 ->
  np.linalg_norm (np.cross n t) <> 0 ->
  np.matvec (rotation n t) n = t /\
  np.matmul (np.transpose (rotation n t)) (rotation n t) = np.eye3 /\
  np.det (rotation n t) = 1.
Proof.
  intros Hn Ht Hs.
  pose proof (rodrigues_factor n t Hn Ht Hs) as Hk.
  rewrite (rotation_rodrigues n t Hs).
  set (k := (1 - np.dot n t) / np.linalg_norm (np.cross n t) ^ 2) in *.
  assert (Hvv : np.dot (np.cross n t) (np.cross n t) =
                1 - np.dot n t * np.dot n t).
  { rewrite dot_cross_cross, Hn, Ht. ring. }
  split; [| split].
  - apply rodrigues_form_maps; assumption.
  - rewrite rodrigues_form_gram, Hvv.
    replace (2 * k - 1 - k * k * (1 - np.dot n t * np.dot n t)) with 0.
    + apply madd_mscale_zero.
    + clearbody k. revert Hk. generalize (np.dot n t). intros c Hk. nsatz.
  - rewrite rodrigues_form_det, Hvv.
    clearbody k. revert Hk. generalize (np.dot n t). intros c Hk. nsatz.
Qed.

(** With the target [(0, 0, 1)], a unit vector with non-negative third entry
    whose cross product with the target vanishes is the target itself. *)
Lemma aligned_is_target (n : Vec3) :
  np.dot n n = 1 -> 0 <= c2 n ->
  np.linalg_norm (np.cross n target_vector) = 0 ->
  n = target_vector.
Proof.
  intros Hn Hz Hs. apply linalg_norm_zero_dot in Hs.
  destruct n as [a b c]. unfold target_vector in *. np_red.
  assert (Ha : a = 0) by nra. assert (Hb : b = 0) by nra. subst a b.
  assert (Hc : c = 1) by nra. subst c. reflexivity.
Qed.

Lemma target_vector_unit : np.dot target_vector target_vector = 1.
Proof. unfold target_vector. np_red. ring. Qed.

Lemma eye3_orthonormal : np.matmul (np.transpose np.eye3) np.eye3 = np.eye3.
Proof. mat3_ext; ring. Qed.

Lemma eye3_det : np.det np.eye3 = 1.
Proof. np_red. ring. Qed.

(** ** What [np.linalg.eigh] hands to the script *)

Lemma eigh_result_unit0 (A : Mat3) (res : Vec3 * Mat3) :
  eigh_result A res -> np.dot (np.col0 (snd res)) (np.col0 (snd res)) = 1.
Proof.
  unfold eigh_result. intros (_ & _ & _ & _ & _ & HV).
  destruct res as [w [[] [] []]]. simpl in *.
  apply (f_equal (fun M => c0 (r0 M))) in HV. np_red. lra.
Qed.

Section Alignment.

Variable eigh : Mat3 -> Vec3 * Mat3.

Lemma normal_vector_unit (points : list Vec3) :
  eigh_result (cov points) (eigh (cov points)) ->
  np.dot (normal_vector eigh points) (normal_vector eigh points) = 1.
Proof.
  intros H. unfold normal_vector. rewrite canonicalize_dot.
  apply (eigh_result_unit0 _ _ H).
Qed.

Lemma normal_vector_c2_nonneg (points : list Vec3) :
  0 <= c2 (normal_vector eigh points).
Proof. apply canonicalize_c2_nonneg. Qed.

(** The two assignments to [chunk.transform.matrix] amount to one
    left-multiplication by [R_matrix * T]. *)
Lemma script_completed (chunk : Chunk) (model : Model) (rest : list Model) :
  models chunk = Some (model :: rest) ->
  (3 <= length (vertices model))%nat ->
  let points := world_points chunk (vertices model) in
  let chunk' :=
    set_transform_matrix chunk
      (Metashape.mul (computeAlignment eigh points) (transform_matrix chunk)) in
  script eigh chunk =
  (chunk', Completed (np.mean (world_points chunk' (vertices model)))).
Proof.
  intros Hm Hn. unfold script. rewrite Hm.
  destruct (Nat.ltb_spec (length (vertices model)) 3) as [Hlt | _].
  - exfalso. apply (Nat.lt_irrefl 3). eapply Nat.le_lt_trans; eassumption.
  - cbv zeta. unfold computeAlignment, set_transform_matrix. simpl.
    rewrite mul_assoc. reflexivity.
Qed.

Lemma divide_zeros3 (k : R) : np.divide np.zeros3 k = np.zeros3.
Proof. vec3_ext; unfold Rdiv; ring. Qed.

(** ** Claims about the stages *)

(** C7: the centroid is the component-wise arithmetic mean of the points
    (each coordinate is the sum of that coordinate over the points divided by
    their number), and the centring stage builds the translation by minus the
    centroid, which sends every point p to p - centroid; both are total
    functions of the points, without case distinction. *)
Theorem centering_stage (points : list Vec3) :
  centroid points =
    mkVec3 (fold_right Rplus 0 (map c0 points) / INR (length points))
           (fold_right Rplus 0 (map c1 points) / INR (length points))
           (fold_right Rplus 0 (map c2 points) / INR (length points)) /\
  T points = Metashape.Translation (np.neg (centroid points)) /\
  forall p : Vec3, Metashape.mulp (T points) p = np.sub p (centroid points).
Proof.
  split; [| split].
  - unfold centroid, np.mean, np.divide.
    assert (Hs : np.sum_rows points =
                 mkVec3 (fold_right Rplus 0 (map c0 points))
                        (fold_right Rplus 0 (map c1 points))
                        (fold_right Rplus 0 (map c2 points))).
    { induction points as [|p ps IH]; [reflexivity |].
      simpl. rewrite IH. destruct p. reflexivity. }
    rewrite Hs. reflexivity.
  - reflexivity.
  - intros p. unfold T. rewrite mulp_Translation. reflexivity.
Qed.

(** C5: when the first model has fewer than 3 vertices the script raises the
    not-enough-vertices exception (InsufficientDataError) at once, and the
    chunk, with its transform matrix, is left as it was found. *)
Theorem insufficient_data_raises (chunk : Chunk) (model : Model) (rest : list Model) :
  models chunk = Some (model :: rest) ->
  (length (vertices model) < 3)%nat ->
  script eigh chunk = (chunk, InsufficientDataError).
Proof.
  intros Hm Hlt. unfold script. rewrite Hm.
  apply Nat.ltb_lt in Hlt. rewrite Hlt. reflexivity.
Qed.

(** C1: on a chunk whose mesh has at least 3 vertices, the transform the
    script multiplies onto the chunk transform is R_matrix * T; it acts on a
    point by translating first and rotating second; and the world points
    transformed by it have the zero vector as their mean. *)
Theorem transform_is_rotation_after_translation
    (chunk : Chunk) (model : Model) (rest : list Model) :
  models chunk = Some (model :: rest) ->
  (3 <= length (vertices model))%nat ->
  let points := world_points chunk (vertices model) in
  let RT := Metashape.mul (R_matrix eigh points) (T points) in
  transform_matrix (fst (script eigh chunk)) =
    Metashape.mul RT (transform_matrix chunk) /\
  (forall p : Vec3,
     Metashape.mulp RT p =
     Metashape.mulp (R_matrix eigh points) (Metashape.mulp (T points) p)) /\
  np.mean (map (Metashape.mulp RT) points) = np.zeros3.
Proof.
  intros Hm Hn points RT. split; [| split].
  - rewrite (script_completed chunk model rest Hm Hn). reflexivity.
  - intros p. apply mulp_mul. apply affine_Translation.
  - unfold np.mean. fold (computeAlignment eigh points) in RT. subst RT.
    rewrite sum_rows_aligned.
    + apply divide_zeros3.
    + subst points. unfold world_points. rewrite length_map.
      apply Nat.le_trans with (2 := Hn). repeat constructor.
Qed.

(** C3: when the cross product v of the canonicalized normal n and the target
    axis t has nonzero norm s, the rotation is I + K + K^2 * ((1 - c) / s^2),
    with K the cross-product matrix of v and c = n . t, and it maps n onto t. *)
Theorem rotation_is_rodrigues (points : list Vec3) :
  (3 <= length points)%nat ->
  eigh_result (cov points) (eigh (cov points)) ->
  let n := normal_vector eigh points in
  let t := target_vector in
  let v := np.cross n t in
  let s := np.linalg_norm v in
  let c := np.dot n t in
  let K := skew v in
  s <> 0 ->
  R_ eigh points =
    np.madd (np.madd np.eye3 K) (np.mscale (np.matmul K K) ((1 - c) / s ^ 2)) /\
  np.matvec (R_ eigh points) n = t.
Proof.
  intros _ He n t v s c K Hs. unfold R_. fold n. fold t. split.
  - rewrite (rotation_rodrigues n t Hs). reflexivity.
  - apply rotation_unit_nonparallel.
    + apply normal_vector_unit. exact He.
    + apply target_vector_unit.
    + exact Hs.
Qed.

(** C6: the rotation block R of the output is orthonormal, has determinant
    +1, and sends the canonicalized normal to the target axis. *)
Theorem rotation_is_proper (points : list Vec3) :
  (3 <= length points)%nat ->
  eigh_result (cov points) (eigh (cov points)) ->
  np.matmul (np.transpose (R_ eigh points)) (R_ eigh points) = np.eye3 /\
  np.det (R_ eigh points) = 1 /\
  np.matvec (R_ eigh points) (normal_vector eigh points) = target_vector.
Proof.
  intros _ He. unfold R_.
  pose proof (normal_vector_unit points He) as Hn.
  pose proof (normal_vector_c2_nonneg points) as Hz.
  set (n := normal_vector eigh points) in *.
  destruct (Req_dec_T (np.linalg_norm (np.cross n target_vector)) 0) as [Hs | Hs].
  - rewrite (rotation_aligned _ _ Hs).
    split; [apply eye3_orthonormal | split; [apply eye3_det |]].
    rewrite matvec_eye3. apply aligned_is_target; assumption.
  - destruct (rotation_unit_nonparallel n target_vector Hn target_vector_unit Hs)
      as (Hmap & Horth & Hdet).
    repeat split; assumption.
Qed.

(** C10: the quotient (1 - c) / s^2 is only formed with a nonzero divisor, so
    the checked rotation stage always yields the rotation; the canonicalized
    normal has a non-negative third entry; and, the eigensolver's vector being
    of unit length, the identity branch s = 0 is only taken when the normal is
    the target axis (0,0,1), where c = 1 and not -1. *)
Theorem division_is_guarded (points : list Vec3) :
  (3 <= length points)%nat ->
  eigh_result (cov points) (eigh (cov points)) ->
  let n := normal_vector eigh points in
  rotation_checked n target_vector = Some (R_ eigh points) /\
  (forall a b : Vec3, rotation_checked a b = Some (rotation a b)) /\
  0 <= c2 n /\
  (np.linalg_norm (np.cross n target_vector) = 0 ->
   n = target_vector /\ np.dot n target_vector = 1).
Proof.
  intros _ He n.
  assert (Hall : forall a b : Vec3, rotation_checked a b = Some (rotation a b)).
  { intros a b. unfold rotation_checked, rotation, checked_div.
    destruct (Req_dec_T (np.linalg_norm (np.cross a b)) 0) as [Hs | Hs];
      [reflexivity |].
    destruct (Req_dec_T (np.linalg_norm (np.cross a b) ^ 2) 0) as [Hq | Hq];
      [| reflexivity].
    exfalso. exact (pow_nonzero _ 2 Hs Hq). }
  split; [apply Hall | split; [exact Hall | split]].
  - apply normal_vector_c2_nonneg.
  - intros Hs.
    assert (Hn : n = target_vector).
    { apply aligned_is_target;
        [apply normal_vector_unit; exact He | apply normal_vector_c2_nonneg | exact Hs]. }
    split; [exact Hn |]. rewrite Hn. apply target_vector_unit.
Qed.

End Alignment.

(** ** Reordering the points *)

Lemma add_comm_assoc (p q v : Vec3) :
  np.add p (np.add q v) = np.add q (np.add p v).
Proof. destruct p, q, v. vec3_ext; ring. Qed.

Lemma madd_comm_assoc (A B C : Mat3) :
  np.madd A (np.madd B C) = np.madd B (np.madd A C).
Proof. destruct A as [[] [] []], B as [[] [] []], C as [[] [] []]. mat3_ext; ring. Qed.

Lemma sum_rows_Permutation (xs ys : list Vec3) :
  Permutation xs ys -> np.sum_rows xs = np.sum_rows ys.
Proof.
  induction 1 as [| p xs ys _ IH | p q xs | xs ys zs _ IH1 _ IH2]; simpl.
  - reflexivity.
  - rewrite IH. reflexivity.
  - apply add_comm_assoc.
  - rewrite IH1. exact IH2.
Qed.

Lemma gram_Permutation (xs ys : list Vec3) :
  Permutation xs ys -> np.gram xs = np.gram ys.
Proof.
  induction 1 as [| p xs ys _ IH | p q xs | xs ys zs _ IH1 _ IH2]; simpl.
  - reflexivity.
  - rewrite IH. reflexivity.
  - apply madd_comm_assoc.
  - rewrite IH1. exact IH2.
Qed.

Lemma mean_Permutation (xs ys : list Vec3) :
  Permutation xs ys -> np.mean xs = np.mean ys.
Proof.
  intros H. unfold np.mean.
  rewrite (sum_rows_Permutation _ _ H), (Permutation_length H). reflexivity.
Qed.

Lemma np_cov_Permutation (xs ys : list Vec3) :
  Permutation xs ys -> np.cov xs = np.cov ys.
Proof.
  intros H. unfold np.cov.
  rewrite (mean_Permutation _ _ H), (Permutation_length H).
  f_equal. apply gram_Permutation. unfold np.sub_rows.
  apply Permutation_map. exact H.
Qed.

Lemma cov_Permutation (xs ys : list Vec3) :
  Permutation xs ys -> cov xs = cov ys.
Proof.
  intros H. unfold cov. apply np_cov_Permutation.
  unfold centered_points, centroid. rewrite (mean_Permutation _ _ H).
  unfold np.sub_rows. apply Permutation_map. exact H.
Qed.

Section Reordering.

Variable eigh : Mat3 -> Vec3 * Mat3.

(** C9: two point sets that differ only in the order of their points get
    the same transform, and the same canonicalized normal, sign included. *)
Theorem alignment_ignores_order (points points' : list Vec3) :
  (3 <= length points)%nat ->
  Permutation points points' ->
  computeAlignment eigh points = computeAlignment eigh points' /\
  normal_vector eigh points = normal_vector eigh points'.
Proof.
  intros _ H.
  assert (Hn : normal_vector eigh points = normal_vector eigh points').
  { unfold normal_vector, eigenvector0. rewrite (cov_Permutation _ _ H). reflexivity. }
  split; [| exact Hn].
  unfold computeAlignment, R_matrix, R_, T, centroid.
  rewrite Hn, (mean_Permutation _ _ H). reflexivity.
Qed.

End Reordering.

(** ** The tie-break of the rotation stage *)

Section TieBreak.

Variable eigh : Mat3 -> Vec3 * Mat3.


End TieBreak.

(** ** Symmetric matrices and their eigenvectors *)

Lemma eigh_result_eigenbasis (A : Mat3) (res : Vec3 * Mat3) :
  eigh_result A res ->
  eigenbasis A (fst res) (np.col0 (snd res)) (np.col1 (snd res)) (np.col2 (snd res)).
Proof.
  unfold eigh_result, eigenbasis.
  intros (H01 & H12 & H0 & H1 & H2 & HV).
  repeat (split; [assumption |]).
  destruct res as [w [[] [] []]]. cbn [snd] in *.
  pose proof (f_equal (fun M => c0 (r0 M)) HV) as H00.
  pose proof (f_equal (fun M => c1 (r1 M)) HV) as H11.
  pose proof (f_equal (fun M => c2 (r2 M)) HV) as H22.
  pose proof (f_equal (fun M => c1 (r0 M)) HV) as Hx.
  pose proof (f_equal (fun M => c2 (r0 M)) HV) as Hy.
  pose proof (f_equal (fun M => c2 (r1 M)) HV) as Hz.
  clear H0 H1 H2 HV. np_red. repeat split; lra.
Qed.

Lemma symmetric_dot (A : Mat3) (x y : Vec3) :
  symmetric A -> np.dot x (np.matvec A y) = np.dot (np.matvec A x) y.
Proof.
  unfold symmetric. destruct A as [[] [] []], x, y. intros H.
  injection H as; subst. np_red. ring.
Qed.

Lemma outer_symmetric (p : Vec3) : symmetric (np.outer p).
Proof. destruct p. unfold symmetric. mat3_ext; ring. Qed.

Lemma madd_symmetric (A B : Mat3) :
  symmetric A -> symmetric B -> symmetric (np.madd A B).
Proof.
  unfold symmetric. destruct A as [[] [] []], B as [[] [] []]. intros HA HB.
  injection HA as; injection HB as; subst. reflexivity.
Qed.

Lemma mscale_symmetric (A : Mat3) (k : R) :
  symmetric A -> symmetric (np.mscale A k).
Proof.
  unfold symmetric. destruct A as [[] [] []]. intros HA.
  injection HA as; subst. reflexivity.
Qed.

Lemma gram_symmetric (rows : list Vec3) : symmetric (np.gram rows).
Proof.
  induction rows as [|p rows IH]; simpl.
  - reflexivity.
  - apply madd_symmetric; [apply outer_symmetric | exact IH].
Qed.

Lemma cov_symmetric (points : list Vec3) : symmetric (cov points).
Proof. unfold cov, np.cov. apply mscale_symmetric. apply gram_symmetric. Qed.

Lemma dot_scale_r (x y : Vec3) (k : R) : np.dot x (np.scale y k) = k * np.dot x y.
Proof. destruct x, y. np_red. ring. Qed.

Lemma dot_scale_l (x y : Vec3) (k : R) : np.dot (np.scale x k) y = k * np.dot x y.
Proof. destruct x, y. np_red. ring. Qed.

Lemma dot_comm (x y : Vec3) : np.dot x y = np.dot y x.
Proof. destruct x, y. np_red. ring. Qed.

(** Eigenvectors of a symmetric matrix for different eigenvalues are
    orthogonal. *)
Lemma eigen_orthogonal (A : Mat3) (e y : Vec3) (mu lam : R) :
  symmetric A ->
  np.matvec A e = np.scale e mu -> np.matvec A y = np.scale y lam ->
  (lam - mu) * np.dot y e = 0.
Proof.
  intros HA He Hy.
  pose proof (symmetric_dot A e y HA) as H.
  rewrite He, Hy, dot_scale_r, dot_scale_l in H.
  rewrite (dot_comm y e). lra.
Qed.

(** A vector orthogonal to three orthonormal vectors is zero. *)
Lemma orthonormal_complete (e0 e1 e2 y : Vec3) :
  np.dot e0 e0 = 1 -> np.dot e1 e1 = 1 -> np.dot e2 e2 = 1 ->
  np.dot e0 e1 = 0 -> np.dot e0 e2 = 0 -> np.dot e1 e2 = 0 ->
  np.dot y e0 = 0 -> np.dot y e1 = 0 -> np.dot y e2 = 0 ->
  y = np.zeros3.
Proof.
  destruct e0 as [a0 a1 a2], e1 as [b0 b1 b2], e2 as [d0 d1 d2], y as [y0 y1 y2].
  intros. apply Vec3_eq; np_red; nsatz.
Qed.

(** Every eigenvalue of a symmetric matrix is one of the three the
    eigenbasis lists. *)
Lemma eigenvalue_in_spectrum (A : Mat3) (w e0 e1 e2 y : Vec3) (lam : R) :
  symmetric A -> eigenbasis A w e0 e1 e2 ->
  y <> np.zeros3 -> np.matvec A y = np.scale y lam ->
  lam = c0 w \/ lam = c1 w \/ lam = c2 w.
Proof.
  intros HA (_ & _ & H0 & H1 & H2 & U0 & U1 & U2 & O01 & O02 & O12) Hy Hl.
  pose proof (eigen_orthogonal A e0 y _ _ HA H0 Hl) as P0.
  pose proof (eigen_orthogonal A e1 y _ _ HA H1 Hl) as P1.
  pose proof (eigen_orthogonal A e2 y _ _ HA H2 Hl) as P2.
  destruct (Req_dec (np.dot y e0) 0) as [Z0 | N0].
  - destruct (Req_dec (np.dot y e1) 0) as [Z1 | N1].
    + destruct (Req_dec (np.dot y e2) 0) as [Z2 | N2].
      * exfalso. apply Hy.
        apply (orthonormal_complete e0 e1 e2 y); assumption.
      * right; right. apply Rmult_integral in P2. destruct P2; [lra | contradiction].
    + right; left. apply Rmult_integral in P1. destruct P1; [lra | contradiction].
  - left. apply Rmult_integral in P0. destruct P0; [lra | contradiction].
Qed.

Lemma unit_nonzero (u : Vec3) : np.dot u u = 1 -> u <> np.zeros3.
Proof. intros H E. subst u. np_red. lra. Qed.

Lemma eigenvalue_at_least_smallest (A : Mat3) (w e0 e1 e2 y : Vec3) (lam : R) :
  symmetric A -> eigenbasis A w e0 e1 e2 ->
  y <> np.zeros3 -> np.matvec A y = np.scale y lam ->
  c0 w <= lam.
Proof.
  intros HA HB Hy Hl.
  destruct (eigenvalue_in_spectrum A w e0 e1 e2 y lam HA HB Hy Hl) as [E | [E | E]];
    destruct HB as (H01 & H12 & _); lra.
Qed.

(** When the smallest eigenvalue is simple, its unit eigenvector is
    determined up to sign. *)
Lemma least_eigenvector_unique (A : Mat3) (w e0 e1 e2 u : Vec3) (lam : R) :
  symmetric A -> eigenbasis A w e0 e1 e2 -> c0 w < c1 w ->
  np.dot u u = 1 -> np.matvec A u = np.scale u lam -> lam <= c0 w ->
  u = e0 \/ u = np.neg e0.
Proof.
  intros HA HB Hgap Hu Hl Hle.
  pose proof (eigenvalue_at_least_smallest A w e0 e1 e2 u lam HA HB
                (unit_nonzero u Hu) Hl) as Hge.
  assert (El : lam = c0 w) by lra. subst lam.
  destruct HB as (H01 & H12 & H0 & H1 & H2 & U0 & U1 & U2 & O01 & O02 & O12).
  pose proof (eigen_orthogonal A e1 u _ _ HA H1 Hl) as P1.
  pose proof (eigen_orthogonal A e2 u _ _ HA H2 Hl) as P2.
  assert (Z1 : np.dot u e1 = 0).
  { apply Rmult_integral in P1. destruct P1; [lra | assumption]. }
  assert (Z2 : np.dot u e2 = 0).
  { apply Rmult_integral in P2. destruct P2; [lra | assumption]. }
  set (a := np.dot u e0).
  assert (Hy : np.sub u (np.scale e0 a) = np.zeros3).
  { apply (orthonormal_complete e0 e1 e2).
    1-6: assumption.
    all: subst a; clear - U0 O01 O02 Z1 Z2;
      destruct u, e0, e1, e2; np_red; nsatz. }
  assert (Eu : u = np.scale e0 a).
  { clear - Hy. destruct u, e0. apply Vec3_eq; 
      [apply (f_equal c0) in Hy | apply (f_equal c1) in Hy | apply (f_equal c2) in Hy];
      np_red; lra. }
  assert (Ha : a * a = 1).
  { rewrite Eu in Hu. rewrite dot_scale_r, dot_scale_l, U0 in Hu. lra. }
  assert (Hcases : a = 1 \/ a = -1) by (clear - Ha; nra).
  destruct Hcases as [E | E]; rewrite E in Eu; [left | right]; rewrite Eu;
    destruct e0; vec3_ext; ring.
Qed.

(** ** The covariance of the aligned points *)

Lemma sum_rows_sub_rows (rows : list Vec3) (b : Vec3) :
  np.sum_rows (np.sub_rows rows b) =
  np.sub (np.sum_rows rows) (np.scale b (INR (length rows))).
Proof.
  induction rows as [|p rows IH].
  - simpl. destruct b. vec3_ext; ring.
  - change (length (p :: rows)) with (Datatypes.S (length rows)).
    rewrite S_INR. simpl. rewrite IH.
    destruct b, p, (np.sum_rows rows). vec3_ext; ring.
Qed.

Lemma sub_zeros3 (p : Vec3) : np.sub p np.zeros3 = p.
Proof. destruct p. vec3_ext; ring. Qed.

Lemma sub_rows_zeros3 (rows : list Vec3) : np.sub_rows rows np.zeros3 = rows.
Proof.
  unfold np.sub_rows. rewrite <- (map_id rows) at 2.
  apply map_ext. apply sub_zeros3.
Qed.

Lemma mean_centered_points (points : list Vec3) :
  (1 <= length points)%nat -> np.mean (centered_points points) = np.zeros3.
Proof.
  intros H. unfold np.mean, centered_points, centroid.
  rewrite sum_rows_sub_rows, (sum_rows_centered points H).
  apply divide_zeros3.
Qed.

(** With at least one point, [np.cov] subtracts a zero mean from the centred
    points. *)
Lemma cov_gram (points : list Vec3) :
  (1 <= length points)%nat ->
  cov points =
  np.mscale (np.gram (centered_points points)) (/ (INR (length points) - 1)).
Proof.
  intros H. unfold cov, np.cov.
  rewrite (mean_centered_points points H), sub_rows_zeros3.
  unfold centered_points, np.sub_rows. rewrite length_map. reflexivity.
Qed.

Lemma gram_map_matvec (A : Mat3) (rows : list Vec3) :
  np.gram (map (np.matvec A) rows) =
  np.matmul (np.matmul A (np.gram rows)) (np.transpose A).
Proof.
  induction rows as [|p rows IH]; simpl.
  - destruct A as [[] [] []]. mat3_ext; ring.
  - rewrite IH. destruct A as [[] [] []], p, (np.gram rows) as [[] [] []].
    mat3_ext; ring.
Qed.

Lemma matmul_mscale_conj (A G : Mat3) (k : R) :
  np.mscale (np.matmul (np.matmul A G) (np.transpose A)) k =
  np.matmul (np.matmul A (np.mscale G k)) (np.transpose A).
Proof. destruct A as [[] [] []], G as [[] [] []]. mat3_ext; ring. Qed.

Lemma matvec_conj (A G : Mat3) (x : Vec3) :
  np.matvec (np.matmul (np.matmul A G) (np.transpose A)) x =
  np.matvec A (np.matvec G (np.matvec (np.transpose A) x)).
Proof. destruct A as [[] [] []], G as [[] [] []], x. vec3_ext; ring. Qed.

Lemma matvec_transpose_matvec (A : Mat3) (x : Vec3) :
  np.matvec (np.transpose A) (np.matvec A x) =
  np.matvec (np.matmul (np.transpose A) A) x.
Proof. destruct A as [[] [] []], x. vec3_ext; ring. Qed.

Lemma dot_matvec_matvec (A : Mat3) (x y : Vec3) :
  np.dot (np.matvec A x) (np.matvec A y) =
  np.dot x (np.matvec (np.matmul (np.transpose A) A) y).
Proof. destruct A as [[] [] []], x, y. np_red. ring. Qed.

Lemma matvec_scale (A : Mat3) (x : Vec3) (k : R) :
  np.matvec A (np.scale x k) = np.scale (np.matvec A x) k.
Proof. destruct A as [[] [] []], x. vec3_ext; ring. Qed.

Section Orthogonal.

(** An orthonormal matrix [Q], as the rotation stage returns. *)
Variable Q : Mat3.
Hypothesis Q_orthonormal : np.matmul (np.transpose Q) Q = np.eye3.

Lemma orthonormal_inverse (x : Vec3) :
  np.matvec (np.transpose Q) (np.matvec Q x) = x.
Proof. rewrite matvec_transpose_matvec, Q_orthonormal. apply matvec_eye3. Qed.

Lemma orthonormal_dot (x y : Vec3) :
  np.dot (np.matvec Q x) (np.matvec Q y) = np.dot x y.
Proof. rewrite dot_matvec_matvec, Q_orthonormal, matvec_eye3. reflexivity. Qed.

(** Conjugation by [Q] carries eigenvectors to eigenvectors. *)
Lemma conj_eigenvector (A : Mat3) (e : Vec3) (mu : R) :
  np.matvec A e = np.scale e mu ->
  np.matvec (np.matmul (np.matmul Q A) (np.transpose Q)) (np.matvec Q e) =
  np.scale (np.matvec Q e) mu.
Proof.
  intros H. rewrite matvec_conj, orthonormal_inverse, H. apply matvec_scale.
Qed.

Lemma conj_eigenbasis (A : Mat3) (w e0 e1 e2 : Vec3) :
  eigenbasis A w e0 e1 e2 ->
  eigenbasis (np.matmul (np.matmul Q A) (np.transpose Q)) w
    (np.matvec Q e0) (np.matvec Q e1) (np.matvec Q e2).
Proof.
  intros (H01 & H12 & H0 & H1 & H2 & U0 & U1 & U2 & O01 & O02 & O12).
  unfold eigenbasis. rewrite !orthonormal_dot.
  repeat (split; [first [assumption | apply conj_eigenvector; assumption] |]).
  assumption.
Qed.

End Orthogonal.

Section Realignment.

Variable eigh : Mat3 -> Vec3 * Mat3.

Lemma aligned_points_matvec (points : list Vec3) :
  aligned_points eigh points = map (np.matvec (R_ eigh points)) (centered_points points).
Proof.
  unfold aligned_points, centered_points, np.sub_rows.
  rewrite map_map. apply map_ext. intros p. apply mulp_computeAlignment.
Qed.

Lemma length_aligned_points (points : list Vec3) :
  length (aligned_points eigh points) = length points.
Proof. unfold aligned_points. apply length_map. Qed.

Lemma centroid_aligned_points (points : list Vec3) :
  (1 <= length points)%nat -> centroid (aligned_points eigh points) = np.zeros3.
Proof.
  intros H. unfold centroid, np.mean, aligned_points.
  rewrite (sum_rows_aligned eigh points H). apply divide_zeros3.
Qed.

Lemma cov_aligned_points (points : list Vec3) :
  (1 <= length points)%nat ->
  cov (aligned_points eigh points) =
  np.matmul (np.matmul (R_ eigh points) (cov points)) (np.transpose (R_ eigh points)).
Proof.
  intros H.
  assert (H' : (1 <= length (aligned_points eigh points))%nat)
    by (rewrite length_aligned_points; exact H).
  rewrite (cov_gram _ H'), (cov_gram _ H).
  unfold centered_points at 1.
  rewrite (centroid_aligned_points points H), sub_rows_zeros3.
  rewrite length_aligned_points, aligned_points_matvec, gram_map_matvec.
  apply matmul_mscale_conj.
Qed.

End Realignment.

Section LeastEigenvector.

Variable eigh : Mat3 -> Vec3 * Mat3.

Lemma normal_vector_eigenvector (points : list Vec3) :
  eigh_result (cov points) (eigh (cov points)) ->
  np.matvec (cov points) (normal_vector eigh points) =
  np.scale (normal_vector eigh points) (c0 (fst (eigh (cov points)))).
Proof.
  intros (_ & _ & H0 & _). apply canonicalize_eigenvector. exact H0.
Qed.

(** The rotation is orthonormal and sends the normal to the target axis,
    in either branch. *)
Lemma R_orthonormal_maps (points : list Vec3) :
  eigh_result (cov points) (eigh (cov points)) ->
  np.matmul (np.transpose (R_ eigh points)) (R_ eigh points) = np.eye3 /\
  np.matvec (R_ eigh points) (normal_vector eigh points) = target_vector.
Proof.
  intros He. unfold R_.
  pose proof (normal_vector_unit eigh points He) as Hn.
  pose proof (normal_vector_c2_nonneg eigh points) as Hz.
  set (n := normal_vector eigh points) in *.
  destruct (Req_dec_T (np.linalg_norm (np.cross n target_vector)) 0) as [Hs | Hs].
  - rewrite (rotation_aligned _ _ Hs). split; [apply eye3_orthonormal |].
    rewrite matvec_eye3. apply aligned_is_target; assumption.
  - destruct (rotation_unit_nonparallel n target_vector Hn target_vector_unit Hs)
      as (Hmap & Horth & _).
    split; assumption.
Qed.

(** C2: the fitted normal is a unit eigenvector of the symmetric covariance
    matrix of the centred points for its smallest eigenvalue (no eigenvalue of
    that matrix is smaller), and it is the eigensolver's first column, negated
    when its third entry, the one along the target axis, is negative; so the
    third entry of the normal is non-negative. *)
Theorem normal_is_least_eigenvector (points : list Vec3) :
  (3 <= length points)%nat ->
  eigh_result (cov points) (eigh (cov points)) ->
  let w := fst (eigh (cov points)) in
  let e := eigenvector0 eigh points in
  let n := normal_vector eigh points in
  symmetric (cov points) /\
  np.dot n n = 1 /\
  np.matvec (cov points) n = np.scale n (c0 w) /\
  (forall (y : Vec3) (lam : R),
     y <> np.zeros3 -> np.matvec (cov points) y = np.scale y lam -> c0 w <= lam) /\
  ((c2 e < 0 /\ n = np.neg e) \/ (0 <= c2 e /\ n = e)) /\
  0 <= np.dot n target_vector.
Proof.
  intros _ He w e n.
  split; [apply cov_symmetric |].
  split; [apply normal_vector_unit; exact He |].
  split; [apply normal_vector_eigenvector; exact He |].
  split.
  - intros y lam Hy Hl.
    apply (eigenvalue_at_least_smallest (cov points) w _ _ _ y lam
             (cov_symmetric points) (eigh_result_eigenbasis _ _ He) Hy Hl).
  - split; [apply canonicalize_cases |].
    pose proof (normal_vector_c2_nonneg eigh points) as Hz. fold n in Hz.
    destruct n. unfold target_vector. np_red. lra.
Qed.

(** After the alignment, the normal fitted to the aligned points is the
    target axis, provided the least eigenvalue is simple. *)
Lemma realigned_normal (points : list Vec3) :
  (1 <= length points)%nat ->
  eigh_result (cov points) (eigh (cov points)) ->
  c0 (fst (eigh (cov points))) < c1 (fst (eigh (cov points))) ->
  eigh_result (cov (aligned_points eigh points))
              (eigh (cov (aligned_points eigh points))) ->
  normal_vector eigh (aligned_points eigh points) = target_vector.
Proof.
  intros H1 He Hgap He'.
  set (points' := aligned_points eigh points) in *.
  pose proof (R_orthonormal_maps points He) as (HQ & Hmap).
  pose proof (normal_vector_unit eigh points He) as Hn.
  pose proof (normal_vector_eigenvector points He) as Hnl.
  pose proof (eigh_result_eigenbasis _ _ He) as HB.
  pose proof (eigh_result_eigenbasis _ _ He') as HB'.
  pose proof (cov_symmetric points') as Hsym'.
  pose proof (cov_aligned_points eigh points H1) as Hcov. fold points' in Hcov.
  set (Q := R_ eigh points) in *.
  set (A := cov points) in *.
  set (w := fst (eigh A)) in *.
  set (n := normal_vector eigh points) in *.
  (* the target axis is an eigenvector of the new covariance matrix *)
  assert (Ht : np.matvec (cov points') target_vector =
               np.scale target_vector (c0 w)).
  { rewrite Hcov, <- Hmap. apply conj_eigenvector; assumption. }
  (* so the new smallest eigenvalue is at most the old one *)
  assert (Hle : c0 (fst (eigh (cov points'))) <= c0 w).
  { apply (eigenvalue_at_least_smallest (cov points') _ _ _ _ target_vector (c0 w)
             Hsym' HB' (unit_nonzero _ target_vector_unit) Ht). }
  (* the rotated old eigenvectors are an eigenbasis of the new matrix *)
  pose proof (conj_eigenbasis Q HQ A w _ _ _ HB) as HBQ. rewrite <- Hcov in HBQ.
  (* and the new first eigenvector is the rotated old one up to sign *)
  destruct HB' as (_ & _ & Hu & _ & _ & Uu & _).
  pose proof (least_eigenvector_unique (cov points') w _ _ _ _ _
                Hsym' HBQ Hgap Uu Hu Hle) as Hcases.
  assert (He0 : np.matvec Q (np.col0 (snd (eigh A))) = target_vector \/
                np.matvec Q (np.col0 (snd (eigh A))) = np.neg target_vector).
  { destruct (canonicalize_cases (eigenvector0 eigh points)) as [[_ E] | [_ E]];
      fold (normal_vector eigh points) in E; fold n in E;
      unfold eigenvector0 in E; fold A in E.
    - right. rewrite <- (neg_neg_vec (np.col0 (snd (eigh A)))), <- E.
      rewrite matvec_neg, Hmap. reflexivity.
    - left. rewrite <- E. exact Hmap. }
  unfold normal_vector, eigenvector0.
  assert (Hu' : np.col0 (snd (eigh (cov points'))) = target_vector \/
                np.col0 (snd (eigh (cov points'))) = np.neg target_vector).
  { destruct Hcases as [E | E], He0 as [E0 | E0]; rewrite E, E0;
      rewrite ?neg_neg_vec; auto. }
  unfold canonicalize, target_vector in *.
  destruct Hu' as [E | E]; rewrite E; cbn [c2 np.neg];
    destruct (Rlt_dec _ 0) as [Hlt | Hge]; try lra.
  - reflexivity.
  - vec3_ext; ring.
Qed.

(** C8: when the smallest eigenvalue of the covariance matrix is simple,
    computing the transform, applying it to every point and computing the
    transform of the resulting points gives the identity matrix. *)
Theorem realignment_is_identity (points : list Vec3) :
  (3 <= length points)%nat ->
  eigh_result (cov points) (eigh (cov points)) ->
  c0 (fst (eigh (cov points))) < c1 (fst (eigh (cov points))) ->
  let points' := aligned_points eigh points in
  eigh_result (cov points') (eigh (cov points')) ->
  computeAlignment eigh points' = Metashape.Diag1.
Proof.
  intros HN He Hgap points' He'.
  assert (H1 : (1 <= length points)%nat).
  { apply Nat.le_trans with (2 := HN). repeat constructor. }
  pose proof (realigned_normal points H1 He Hgap He') as Hn'. fold points' in Hn'.
  unfold computeAlignment, R_matrix, R_, T.
  rewrite Hn'. unfold points'.
  rewrite (centroid_aligned_points eigh points H1).
  rewrite rotation_aligned.
  - replace (np.neg np.zeros3) with np.zeros3 by (vec3_ext; ring).
    apply mul_to_Matrix_eye3_Translation_zeros3.
  - apply linalg_norm_zero_dot. unfold target_vector. np_red. ring.
Qed.

End LeastEigenvector.

(** ** The sample inputs *)

Lemma cov_square_z5 :
  cov square_z5 = mkMat3 (mkVec3 (1 / 3) 0 0) (mkVec3 0 (1 / 3) 0) (mkVec3 0 0 0).
Proof. cov_eval. Qed.

Lemma cov_square_x3 :
  cov square_x3 = mkMat3 (mkVec3 0 0 0) (mkVec3 0 (1 / 3) 0) (mkVec3 0 0 (1 / 3)).
Proof. cov_eval. Qed.

Lemma eigh_squares_z5 :
  eigh_squares (cov square_z5) = (mkVec3 0 (1 / 3) (1 / 3), axes_zxy).
Proof.
  rewrite cov_square_z5. unfold eigh_squares. cbn [r0 c0].
  destruct (Req_dec_T (1 / 3) 0) as [E | _]; [lra | reflexivity].
Qed.

Lemma eigh_squares_x3 :
  eigh_squares (cov square_x3) = (mkVec3 0 (1 / 3) (1 / 3), np.eye3).
Proof.
  rewrite cov_square_x3. unfold eigh_squares. cbn [r0 c0].
  destruct (Req_dec_T 0 0) as [_ | E]; [reflexivity | contradiction].
Qed.

Lemma eigh_result_square_z5 :
  eigh_result (cov square_z5) (eigh_squares (cov square_z5)).
Proof. rewrite eigh_squares_z5, cov_square_z5. eigh_result_eval; field. Qed.

Lemma eigh_result_square_x3 :
  eigh_result (cov square_x3) (eigh_squares (cov square_x3)).
Proof. rewrite eigh_squares_x3, cov_square_x3. eigh_result_eval; field. Qed.

Lemma normal_vector_square_z5 :
  normal_vector eigh_squares square_z5 = target_vector.
Proof.
  unfold normal_vector, eigenvector0. rewrite eigh_squares_z5.
  unfold canonicalize, axes_zxy. cbn [snd np.col0 r0 r1 r2 c0 c1 c2].
  destruct (Rlt_dec 1 0) as [H | _]; [lra | reflexivity].
Qed.

Lemma normal_vector_square_x3 :
  normal_vector eigh_squares square_x3 = mkVec3 1 0 0.
Proof.
  unfold normal_vector, eigenvector0. rewrite eigh_squares_x3.
  unfold canonicalize, np.eye3. cbn [snd np.col0 r0 r1 r2 c0 c1 c2].
  destruct (Rlt_dec 0 0) as [H | _]; [lra | reflexivity].
Qed.

Lemma cross_square_x3 :
  np.dot (np.cross (normal_vector eigh_squares square_x3) target_vector)
         (np.cross (normal_vector eigh_squares square_x3) target_vector) = 1.
Proof. rewrite normal_vector_square_x3. unfold target_vector. np_red. ring. Qed.

Lemma norm_cross_square_x3 :
  np.linalg_norm (np.cross (normal_vector eigh_squares square_x3) target_vector) <> 0.
Proof.
  intros H. apply linalg_norm_zero_dot in H. rewrite cross_square_x3 in H. lra.
Qed.

Lemma R_square_x3 :
  R_ eigh_squares square_x3 =
  mkMat3 (mkVec3 0 0 (-1)) (mkVec3 0 1 0) (mkVec3 1 0 0).
Proof.
  unfold R_. rewrite (rotation_rodrigues _ _ norm_cross_square_x3).
  rewrite linalg_norm_sq, cross_square_x3, normal_vector_square_x3.
  unfold rodrigues_form, target_vector. mat3_ext; field.
Qed.

Lemma cov_aligned_square_x3 :
  cov (aligned_points eigh_squares square_x3) =
  mkMat3 (mkVec3 (1 / 3) 0 0) (mkVec3 0 (1 / 3) 0) (mkVec3 0 0 0).
Proof.
  rewrite cov_aligned_points by (simpl; repeat constructor).
  rewrite R_square_x3, cov_square_x3. mat3_ext; field.
Qed.

Lemma eigh_result_aligned_square_x3 :
  eigh_result (cov (aligned_points eigh_squares square_x3))
              (eigh_squares (cov (aligned_points eigh_squares square_x3))).
Proof.
  rewrite cov_aligned_square_x3. unfold eigh_squares. cbn [r0 c0].
  destruct (Req_dec_T (1 / 3) 0) as [E | _]; [lra |].
  eigh_result_eval; field.
Qed.

Lemma length_square_z5 : (3 <= length square_z5)%nat.
Proof. simpl. repeat constructor. Qed.

Lemma length_square_x3 : (3 <= length square_x3)%nat.
Proof. simpl. repeat constructor. Qed.

Lemma square_z5_Permutation : Permutation square_z5 square_z5_reordered.
Proof.
  unfold square_z5, square_z5_reordered.
  eapply perm_trans; [apply perm_swap |].
  do 2 apply perm_skip. apply perm_swap.
Qed.

(** ** The claims at the sample inputs *)

Lemma insufficient_data_raises_witness :
  script eigh_squares chunk_two_vertices = (chunk_two_vertices, InsufficientDataError).
Proof.
  apply (insufficient_data_raises eigh_squares chunk_two_vertices
           (mkModel [mkVertex (mkVec3 0 0 0); mkVertex (mkVec3 1 0 0)]) []).
  - reflexivity.
  - simpl. repeat constructor.
Defined.

Lemma transform_is_rotation_after_translation_witness :
  let points := world_points chunk_square_z5 (map mkVertex square_z5) in
  let RT := Metashape.mul (R_matrix eigh_squares points) (T points) in
  transform_matrix (fst (script eigh_squares chunk_square_z5)) =
    Metashape.mul RT (transform_matrix chunk_square_z5) /\
  np.mean (map (Metashape.mulp RT) points) = np.zeros3.
Proof.
  destruct (transform_is_rotation_after_translation eigh_squares chunk_square_z5
              (mkModel (map mkVertex square_z5)) [])
    as (H1 & _ & H3).
  - reflexivity.
  - simpl. repeat constructor.
  - split; [exact H1 | exact H3].
Defined.

Lemma normal_is_least_eigenvector_witness :
  np.matvec (cov square_z5) (normal_vector eigh_squares square_z5) =
    np.scale (normal_vector eigh_squares square_z5)
             (c0 (fst (eigh_squares (cov square_z5)))) /\
  0 <= np.dot (normal_vector eigh_squares square_z5) target_vector.
Proof.
  destruct (normal_is_least_eigenvector eigh_squares square_z5
              length_square_z5 eigh_result_square_z5)
    as (_ & _ & H & _ & _ & Hz).
  split; [exact H | exact Hz].
Defined.

Lemma rotation_is_rodrigues_witness :
  np.matvec (R_ eigh_squares square_x3) (normal_vector eigh_squares square_x3) =
  target_vector.
Proof.
  apply (rotation_is_rodrigues eigh_squares square_x3
           length_square_x3 eigh_result_square_x3 norm_cross_square_x3).
Defined.

Lemma rotation_is_proper_witness :
  np.matmul (np.transpose (R_ eigh_squares square_x3)) (R_ eigh_squares square_x3) =
    np.eye3 /\
  np.det (R_ eigh_squares square_x3) = 1.
Proof.
  destruct (rotation_is_proper eigh_squares square_x3
              length_square_x3 eigh_result_square_x3) as (H1 & H2 & _).
  split; [exact H1 | exact H2].
Defined.

Lemma realignment_is_identity_witness :
  computeAlignment eigh_squares (aligned_points eigh_squares square_x3) =
  Metashape.Diag1.
Proof.
  apply (realignment_is_identity eigh_squares square_x3
           length_square_x3 eigh_result_square_x3).
  - rewrite eigh_squares_x3. cbn [fst c0 c1]. lra.
  - exact eigh_result_aligned_square_x3.
Defined.

Lemma alignment_ignores_order_witness :
  computeAlignment eigh_squares square_z5 =
  computeAlignment eigh_squares square_z5_reordered.
Proof.
  apply (alignment_ignores_order eigh_squares square_z5 square_z5_reordered
           length_square_z5 square_z5_Permutation).
Defined.


Lemma division_is_guarded_witness :
  rotation_checked (normal_vector eigh_squares square_z5) target_vector =
    Some (R_ eigh_squares square_z5) /\
  np.dot (normal_vector eigh_squares square_z5) target_vector = 1.
Proof.
  destruct (division_is_guarded eigh_squares square_z5
              length_square_z5 eigh_result_square_z5) as (H1 & _ & _ & H4).
  split; [exact H1 |].
  apply H4. rewrite normal_vector_square_z5.
  apply linalg_norm_zero_dot. unfold target_vector. np_red. ring.
Defined.

(** ** Further properties of the script as a whole *)

Lemma mul_Diag1_l (M : Mat4) : Metashape.mul Metashape.Diag1 M = M.
Proof.
  destruct M as [[] [] [] []].
  cbv [Metashape.mul Metashape.hrow Metashape.hdot Metashape.hcol0
       Metashape.hcol1 Metashape.hcol2 Metashape.hcol3 Metashape.Diag1
       q0 q1 q2 q3 h0 h1 h2 h3].
  apply Mat4_eq; apply Vec4_eq; simpl; ring.
Qed.

Lemma mulp_Diag1 (p : Vec3) : Metashape.mulp Metashape.Diag1 p = p.
Proof.
  destruct p. unfold Metashape.mulp, Metashape.Diag1, Metashape.hdot.
  apply Vec3_eq; simpl; ring.
Qed.

Lemma world_points_Diag1 (ms : option (list Model)) (ps : list Vec3) :
  world_points (mkChunk ms Metashape.Diag1) (map mkVertex ps) = ps.
Proof.
  unfold world_points. rewrite map_map. rewrite <- (map_id ps) at 2.
  apply map_ext. intros p. apply mulp_Diag1.
Qed.

Lemma affine_Diag1 : Metashape.affine Metashape.Diag1.
Proof. reflexivity. Qed.

Section WholeScript.

Variable eigh : Mat3 -> Vec3 * Mat3.

(** After the update, the world points are the old world points with the
    computed transform applied, provided the old chunk transform has last
    row [0 0 0 1]. *)
Lemma world_points_updated (chunk : Chunk) (vs : list Vertex) (M : Mat4) :
  Metashape.affine (transform_matrix chunk) ->
  world_points
    (set_transform_matrix chunk (Metashape.mul M (transform_matrix chunk))) vs =
  map (Metashape.mulp M) (world_points chunk vs).
Proof.
  intros Ha. unfold world_points. rewrite map_map. apply map_ext.
  intros v. cbn [transform_matrix set_transform_matrix].
  apply mulp_mul. exact Ha.
Qed.

(** X1: without a mesh (no [models] attribute, or an empty list of models)
    the script raises the no-mesh exception and leaves the chunk as it was. *)
Theorem no_mesh_raises (chunk : Chunk) :
  models chunk = None \/ models chunk = Some [] ->
  script eigh chunk = (chunk, NoMeshError).
Proof. intros [H | H]; unfold script; rewrite H; reflexivity. Qed.

(** The script with a failing eigensolver does what [script] does whenever
    the eigensolver returns. *)
Lemma script_raising_returns (eigh_try : Mat3 -> option (Vec3 * Mat3))
    (chunk : Chunk) :
  (forall A, eigh_try A = Some (eigh A)) ->
  script_raising eigh_try chunk = script eigh chunk.
Proof.
  intros H. unfold script_raising, script.
  destruct (models chunk) as [[| model rest] |]; try reflexivity.
  destruct (length (vertices model) <? 3)%nat; [reflexivity |].
  rewrite H. reflexivity.
Qed.

Section Raising.

Variable eigh_try : Mat3 -> option (Vec3 * Mat3).



(** X4: however the script ends, a chunk transform with last row [0 0 0 1]
    still has that last row: unchanged after an early raise, with the
    translation applied after a raise of the eigensolver, with translation
    and rotation applied at the end. *)
Theorem script_keeps_affinity (chunk : Chunk) :
  Metashape.affine (transform_matrix chunk) ->
  Metashape.affine (transform_matrix (fst (script_raising eigh_try chunk))).
Proof.
  intros Ha. unfold script_raising.
  destruct (models chunk) as [[| model rest] |]; cbn [fst]; try exact Ha.
  destruct (length (vertices model) <? 3)%nat; cbn [fst]; [exact Ha |].
  assert (H1 : Metashape.affine
                 (Metashape.mul (T (world_points chunk (vertices model)))
                                (transform_matrix chunk))).
  { apply affine_mul; [apply affine_Translation | exact Ha]. }
  destruct (eigh_try (cov (world_points chunk (vertices model)))) as [res |];
    cbn [fst transform_matrix set_transform_matrix].
  - apply affine_mul; [apply affine_to_Matrix | exact H1].
  - exact H1.
Qed.

End Raising.

(** X5: only the first model counts: two chunks with the same transform and
    the same first model get the same new transform and end the same way,
    whatever other models follow. *)
Theorem script_reads_first_model (chunk1 chunk2 : Chunk) (model : Model)
    (rest1 rest2 : list Model) :
  models chunk1 = Some (model :: rest1) ->
  models chunk2 = Some (model :: rest2) ->
  transform_matrix chunk1 = transform_matrix chunk2 ->
  transform_matrix (fst (script eigh chunk1)) =
    transform_matrix (fst (script eigh chunk2)) /\
  snd (script eigh chunk1) = snd (script eigh chunk2).
Proof.
  intros H1 H2 HM. unfold script. rewrite H1, H2.
  destruct (length (vertices model) <? 3)%nat; cbn [fst snd].
  - split; [exact HM | reflexivity].
  - unfold world_points, set_transform_matrix. cbn [transform_matrix].
    rewrite HM. split; reflexivity.
Qed.

(** X6: on a chunk whose transform has last row [0 0 0 1] and whose mesh
    has at least 3 vertices, the final centroid the script computes is the
    zero vector. *)
Theorem final_centroid_is_origin (chunk : Chunk) (model : Model) (rest : list Model) :
  models chunk = Some (model :: rest) ->
  (3 <= length (vertices model))%nat ->
  Metashape.affine (transform_matrix chunk) ->
  snd (script eigh chunk) = Completed np.zeros3.
Proof.
  intros Hm Hn Ha.
  rewrite (script_completed eigh chunk model rest Hm Hn). cbn [snd]. f_equal.
  rewrite (world_points_updated chunk (vertices model) _ Ha).
  unfold np.mean. rewrite sum_rows_aligned.
  - apply divide_zeros3.
  - unfold world_points. rewrite length_map.
    apply Nat.le_trans with (2 := Hn). repeat constructor.
Qed.

(** X7: running the script a second time changes nothing: when the least
    eigenvalue of the covariance is simple and the eigensolver returns a
    valid decomposition on both runs, the second run leaves the chunk
    transform of the first run as it is. *)
Theorem script_twice (chunk : Chunk) (model : Model) (rest : list Model) :
  models chunk = Some (model :: rest) ->
  (3 <= length (vertices model))%nat ->
  Metashape.affine (transform_matrix chunk) ->
  let points := world_points chunk (vertices model) in
  let points' := world_points (fst (script eigh chunk)) (vertices model) in
  eigh_result (cov points) (eigh (cov points)) ->
  c0 (fst (eigh (cov points))) < c1 (fst (eigh (cov points))) ->
  eigh_result (cov points') (eigh (cov points')) ->
  fst (script eigh (fst (script eigh chunk))) = fst (script eigh chunk).
Proof.
  intros Hm Hn Ha points points'.
  subst points'. rewrite (script_completed eigh chunk model rest Hm Hn).
  cbn [fst]. fold points.
  rewrite (world_points_updated chunk (vertices model) _ Ha). fold points.
  fold (aligned_points eigh points).
  intros He Hgap He'.
  set (chunk' := set_transform_matrix chunk _).
  assert (Hm' : models chunk' = Some (model :: rest)) by exact Hm.
  rewrite (script_completed eigh chunk' model rest Hm' Hn). cbn [fst].
  assert (Hw : world_points chunk' (vertices model) = aligned_points eigh points).
  { unfold chunk'. rewrite (world_points_updated chunk (vertices model) _ Ha).
    reflexivity. }
  rewrite Hw.
  assert (HN : (3 <= length points)%nat).
  { unfold points, world_points. rewrite length_map. exact Hn. }
  assert (Hid : computeAlignment eigh (aligned_points eigh points) = Metashape.Diag1).
  { (* as in the re-alignment of a point list *)
    assert (H1 : (1 <= length points)%nat).
    { apply Nat.le_trans with (2 := HN). repeat constructor. }
    pose proof (realigned_normal eigh points H1 He Hgap He') as Hn'.
    unfold computeAlignment, R_matrix, R_, T.
    rewrite Hn', (centroid_aligned_points eigh points H1), rotation_aligned.
    - replace (np.neg np.zeros3) with np.zeros3 by (vec3_ext; ring).
      apply mul_to_Matrix_eye3_Translation_zeros3.
    - apply linalg_norm_zero_dot. unfold target_vector. np_red. ring. }
  rewrite Hid, mul_Diag1_l.
  unfold chunk', set_transform_matrix. reflexivity.
Qed.

End WholeScript.

(** ** Further properties of the stages *)

Lemma matvec_sub (A : Mat3) (x y : Vec3) :
  np.sub (np.matvec A x) (np.matvec A y) = np.matvec A (np.sub x y).
Proof. destruct A as [[] [] []], x, y. vec3_ext; ring. Qed.

Lemma sub_sub_common (p q c : Vec3) :
  np.sub (np.sub p c) (np.sub q c) = np.sub p q.
Proof. destruct p, q, c. vec3_ext; ring. Qed.

Lemma matvec_transpose_target (A : Mat3) :
  np.matvec (np.transpose A) target_vector = r2 A.
Proof. destruct A as [[] [] []]. unfold target_vector. vec3_ext; ring. Qed.

Lemma c2_matvec (A : Mat3) (x : Vec3) : c2 (np.matvec A x) = np.dot (r2 A) x.
Proof. reflexivity. Qed.

(** The quadratic form of [X^T X] is the sum of the squared projections of
    the rows. *)
Lemma quadratic_gram (rows : list Vec3) (y : Vec3) :
  np.dot y (np.matvec (np.gram rows) y) =
  fold_right Rplus 0 (map (fun x => np.dot x y * np.dot x y) rows).
Proof.
  induction rows as [|p rows IH]; simpl.
  - destruct y. np_red. ring.
  - rewrite <- IH. destruct p, y, (np.gram rows) as [[] [] []]. np_red. ring.
Qed.

Lemma quadratic_mscale (A : Mat3) (k : R) (y : Vec3) :
  np.dot y (np.matvec (np.mscale A k) y) = k * np.dot y (np.matvec A y).
Proof. destruct A as [[] [] []], y. np_red. ring. Qed.

Lemma sum_squares_nonneg {A : Type} (f : A -> R) (l : list A) :
  0 <= fold_right Rplus 0 (map (fun x => f x * f x) l).
Proof.
  induction l as [|a l IH]; simpl; [lra |].
  pose proof (Rle_0_sqr (f a)) as H. unfold Rsqr in H. lra.
Qed.

Lemma sum_squares_zero {A : Type} (f : A -> R) (l : list A) :
  fold_right Rplus 0 (map (fun x => f x * f x) l) = 0 ->
  forall a, In a l -> f a = 0.
Proof.
  induction l as [|b l IH]; simpl; intros H a Ha; [contradiction |].
  pose proof (sum_squares_nonneg f l) as Hl.
  pose proof (Rle_0_sqr (f b)) as Hb. unfold Rsqr in Hb.
  destruct Ha as [-> | Ha].
  - nra.
  - apply IH; [lra | exact Ha].
Qed.

Lemma INR_length_minus_1_pos {A : Type} (l : list A) :
  (3 <= length l)%nat -> 0 < INR (length l) - 1.
Proof.
  intros H. apply le_INR in H. simpl in H. lra.
Qed.

Section Geometry.

Variable eigh : Mat3 -> Vec3 * Mat3.

(** The third row of the rotation is the fitted normal. *)
Lemma R_row2 (points : list Vec3) :
  eigh_result (cov points) (eigh (cov points)) ->
  r2 (R_ eigh points) = normal_vector eigh points.
Proof.
  intros He. destruct (R_orthonormal_maps eigh points He) as (HQ & Hmap).
  rewrite <- matvec_transpose_target, <- Hmap.
  apply orthonormal_inverse. exact HQ.
Qed.

(** X8: the transform is rigid: it keeps the squared distance between any
    two points. *)
Theorem alignment_keeps_distances (points : list Vec3) (p q : Vec3) :
  (3 <= length points)%nat ->
  eigh_result (cov points) (eigh (cov points)) ->
  let M := computeAlignment eigh points in
  np.dot (np.sub (Metashape.mulp M p) (Metashape.mulp M q))
         (np.sub (Metashape.mulp M p) (Metashape.mulp M q)) =
  np.dot (np.sub p q) (np.sub p q).
Proof.
  intros _ He M. subst M. rewrite !mulp_computeAlignment.
  destruct (R_orthonormal_maps eigh points He) as (HQ & _).
  rewrite matvec_sub, (orthonormal_dot _ HQ), sub_sub_common. reflexivity.
Qed.

(** X9: the transform can be undone: rotating back by the transpose of R
    and adding the centroid returns the point. *)
Theorem alignment_round_trip (points : list Vec3) (p : Vec3) :
  (3 <= length points)%nat ->
  eigh_result (cov points) (eigh (cov points)) ->
  np.add (np.matvec (np.transpose (R_ eigh points))
            (Metashape.mulp (computeAlignment eigh points) p))
         (centroid points) = p.
Proof.
  intros _ He. rewrite mulp_computeAlignment.
  destruct (R_orthonormal_maps eigh points He) as (HQ & _).
  rewrite (orthonormal_inverse _ HQ).
  destruct p, (centroid points). vec3_ext; ring.
Qed.

(** X10: after the alignment, the third coordinate of a point is its signed
    distance, along the fitted normal, from the plane through the centroid. *)
Theorem aligned_height_is_plane_distance (points : list Vec3) (p : Vec3) :
  (3 <= length points)%nat ->
  eigh_result (cov points) (eigh (cov points)) ->
  c2 (Metashape.mulp (computeAlignment eigh points) p) =
  np.dot (normal_vector eigh points) (np.sub p (centroid points)).
Proof.
  intros _ He. rewrite mulp_computeAlignment, c2_matvec, (R_row2 points He).
  reflexivity.
Qed.

(** The squared projections of the centred points on the normal add up to
    (N - 1) times the least eigenvalue. *)
Lemma normal_residual (points : list Vec3) :
  (3 <= length points)%nat ->
  eigh_result (cov points) (eigh (cov points)) ->
  fold_right Rplus 0
    (map (fun x => np.dot x (normal_vector eigh points) *
                   np.dot x (normal_vector eigh points))
         (centered_points points)) =
  (INR (length points) - 1) * c0 (fst (eigh (cov points))).
Proof.
  intros HN He.
  pose proof (INR_length_minus_1_pos points HN) as Hpos.
  assert (H1 : (1 <= length points)%nat).
  { apply Nat.le_trans with (2 := HN). repeat constructor. }
  pose proof (normal_vector_eigenvector eigh points He) as Hl.
  pose proof (normal_vector_unit eigh points He) as Hn.
  set (n := normal_vector eigh points) in *.
  set (lam := c0 (fst (eigh (cov points)))) in *.
  assert (Hq : np.dot n (np.matvec (cov points) n) = lam).
  { rewrite Hl, dot_scale_r, Hn. ring. }
  rewrite (cov_gram points H1), quadratic_mscale, quadratic_gram in Hq.
  rewrite <- Hq. field. lra.
Qed.

(** X11: the squared third coordinates of the aligned points add up to
    (N - 1) times the least eigenvalue of the covariance matrix: the least
    eigenvalue measures how far the aligned mesh is from the plane z = 0. *)
Theorem aligned_heights_sum (points : list Vec3) :
  (3 <= length points)%nat ->
  eigh_result (cov points) (eigh (cov points)) ->
  fold_right Rplus 0 (map (fun q => c2 q * c2 q) (aligned_points eigh points)) =
  (INR (length points) - 1) * c0 (fst (eigh (cov points))).
Proof.
  intros HN He. rewrite <- (normal_residual points HN He).
  rewrite aligned_points_matvec, map_map. f_equal. apply map_ext.
  intros x. rewrite c2_matvec, (R_row2 points He).
  rewrite (dot_comm x). reflexivity.
Qed.

(** X12: when the least eigenvalue is 0 (the points lie in one plane), every
    aligned point has third coordinate 0: the mesh lies flat on the XY
    plane. *)
Theorem coplanar_points_lie_flat (points : list Vec3) :
  (3 <= length points)%nat ->
  eigh_result (cov points) (eigh (cov points)) ->
  c0 (fst (eigh (cov points))) = 0 ->
  forall q, In q (aligned_points eigh points) -> c2 q = 0.
Proof.
  intros HN He H0.
  apply (sum_squares_zero c2).
  transitivity ((INR (length points) - 1) * c0 (fst (eigh (cov points))));
    [| rewrite H0; ring].
  rewrite <- (normal_residual points HN He).
  rewrite aligned_points_matvec, map_map. f_equal. apply map_ext.
  intros x. rewrite c2_matvec, (R_row2 points He).
  rewrite (dot_comm x). reflexivity.
Qed.

(** X13: the covariance matrix is positive semi-definite, so the three
    eigenvalues the eigensolver returns are non-negative. *)
Theorem covariance_is_positive_semidefinite (points : list Vec3) :
  (3 <= length points)%nat ->
  eigh_result (cov points) (eigh (cov points)) ->
  (forall y : Vec3, 0 <= np.dot y (np.matvec (cov points) y)) /\
  0 <= c0 (fst (eigh (cov points))) /\
  0 <= c1 (fst (eigh (cov points))) /\
  0 <= c2 (fst (eigh (cov points))).
Proof.
  intros HN He.
  pose proof (INR_length_minus_1_pos points HN) as Hpos.
  assert (H1 : (1 <= length points)%nat).
  { apply Nat.le_trans with (2 := HN). repeat constructor. }
  assert (Hpsd : forall y : Vec3, 0 <= np.dot y (np.matvec (cov points) y)).
  { intros y. rewrite (cov_gram points H1), quadratic_mscale, quadratic_gram.
    apply Rmult_le_pos.
    - left. apply Rinv_0_lt_compat. exact Hpos.
    - apply (sum_squares_nonneg (fun x => np.dot x y)). }
  split; [exact Hpsd |].
  destruct (eigh_result_eigenbasis _ _ He)
    as (H01 & H12 & E0 & _ & _ & U0 & _).
  assert (H0 : 0 <= c0 (fst (eigh (cov points)))).
  { pose proof (Hpsd (np.col0 (snd (eigh (cov points))))) as H.
    rewrite E0, dot_scale_r, U0 in H. lra. }
  repeat split; lra.
Qed.

End Geometry.

(** ** Moving the points, and the eigensolver's sign *)

Lemma sum_rows_shift (rows : list Vec3) (d : Vec3) :
  np.sum_rows (map (fun p => np.add p d) rows) =
  np.add (np.sum_rows rows) (np.scale d (INR (length rows))).
Proof.
  induction rows as [|p rows IH].
  - simpl. destruct d. vec3_ext; ring.
  - change (length (p :: rows)) with (Datatypes.S (length rows)).
    rewrite S_INR. simpl. rewrite IH.
    destruct d, p, (np.sum_rows rows). vec3_ext; ring.
Qed.

Lemma centroid_shift (points : list Vec3) (d : Vec3) :
  (1 <= length points)%nat ->
  centroid (map (fun p => np.add p d) points) = np.add (centroid points) d.
Proof.
  intros H. apply INR_length_pos in H.
  unfold centroid, np.mean. rewrite sum_rows_shift, length_map.
  destruct d, (np.sum_rows points). vec3_ext; field; lra.
Qed.

Lemma centered_points_shift (points : list Vec3) (d : Vec3) :
  (1 <= length points)%nat ->
  centered_points (map (fun p => np.add p d) points) = centered_points points.
Proof.
  intros H. unfold centered_points. rewrite (centroid_shift points d H).
  unfold np.sub_rows. rewrite map_map. apply map_ext.
  intros p. destruct p, d, (centroid points). vec3_ext; ring.
Qed.

Lemma mul_Translation_Translation (u v : Vec3) :
  Metashape.mul (Metashape.Translation u) (Metashape.Translation v) =
  Metashape.Translation (np.add u v).
Proof.
  destruct u, v.
  cbv [Metashape.mul Metashape.hrow Metashape.hdot Metashape.hcol0
       Metashape.hcol1 Metashape.hcol2 Metashape.hcol3 Metashape.Translation
       np.add q0 q1 q2 q3 h0 h1 h2 h3 c0 c1 c2].
  apply Mat4_eq; apply Vec4_eq; simpl; ring.
Qed.

Lemma to_Matrix_eye3 : to_Matrix np.eye3 = Metashape.Diag1.
Proof. reflexivity. Qed.

Lemma rodrigues_form_axis (v : Vec3) (k : R) :
  np.matvec (rodrigues_form v k) v = v.
Proof. destruct v. unfold rodrigues_form. vec3_ext; ring. Qed.

Lemma rodrigues_form_gram_r (v : Vec3) (k : R) :
  np.matmul (rodrigues_form v k) (np.transpose (rodrigues_form v k)) =
  np.madd np.eye3
    (np.mscale (np.matmul (skew v) (skew v)) (2 * k - 1 - k * k * np.dot v v)).
Proof.
  destruct v as [a b c]. unfold rodrigues_form.
  apply Mat3_eq; apply Vec3_eq; np_red; ring.
Qed.

Lemma rodrigues_form_neg (v : Vec3) (k : R) :
  rodrigues_form (np.neg v) k = np.transpose (rodrigues_form v k).
Proof. destruct v. unfold rodrigues_form. mat3_ext; ring. Qed.

Lemma cross_swap (n t : Vec3) : np.cross t n = np.neg (np.cross n t).
Proof. destruct n, t. vec3_ext; ring. Qed.

Lemma linalg_norm_neg (v : Vec3) : np.linalg_norm (np.neg v) = np.linalg_norm v.
Proof. unfold np.linalg_norm. rewrite dot_neg_neg. reflexivity. Qed.

Section Invariance.

Variable eigh : Mat3 -> Vec3 * Mat3.

(** X14: moving all the points by one vector d leaves the fitted normal and
    the rotation as they are, and the transform is the old one preceded by
    the translation back by d. *)
Theorem alignment_of_shifted_points (points : list Vec3) (d : Vec3) :
  (3 <= length points)%nat ->
  let shifted := map (fun p => np.add p d) points in
  normal_vector eigh shifted = normal_vector eigh points /\
  R_ eigh shifted = R_ eigh points /\
  computeAlignment eigh shifted =
    Metashape.mul (computeAlignment eigh points) (Metashape.Translation (np.neg d)).
Proof.
  intros HN shifted.
  assert (H1 : (1 <= length points)%nat).
  { apply Nat.le_trans with (2 := HN). repeat constructor. }
  assert (Hcov : cov shifted = cov points).
  { unfold cov, shifted. rewrite (centered_points_shift points d H1). reflexivity. }
  assert (Hn : normal_vector eigh shifted = normal_vector eigh points).
  { unfold normal_vector, eigenvector0. rewrite Hcov. reflexivity. }
  assert (HR : R_ eigh shifted = R_ eigh points).
  { unfold R_. rewrite Hn. reflexivity. }
  split; [exact Hn | split; [exact HR |]].
  unfold computeAlignment, R_matrix, T. rewrite HR.
  unfold shifted. rewrite (centroid_shift points d H1).
  rewrite <- mul_assoc, mul_Translation_Translation.
  do 2 f_equal. destruct (centroid points), d. vec3_ext; ring.
Qed.

(** X15: a first eigenvector with zero first and second entries, whatever
    the sign of the third, needs no rotation: R is the identity and the
    transform is the translation to the centroid alone. *)
Theorem vertical_normal_needs_no_rotation (points : list Vec3) :
  c0 (eigenvector0 eigh points) = 0 ->
  c1 (eigenvector0 eigh points) = 0 ->
  R_ eigh points = np.eye3 /\ computeAlignment eigh points = T points.
Proof.
  intros Hx Hy.
  assert (HR : R_ eigh points = np.eye3).
  { unfold R_. apply rotation_aligned. apply linalg_norm_zero_dot.
    unfold normal_vector.
    destruct (canonicalize_cases (eigenvector0 eigh points)) as [[_ ->] | [_ ->]];
      destruct (eigenvector0 eigh points); cbn [c0 c1] in Hx, Hy; subst;
      unfold target_vector; np_red; ring. }
  split; [exact HR |].
  unfold computeAlignment, R_matrix. rewrite HR, to_Matrix_eye3.
  apply mul_Diag1_l.
Qed.

End Invariance.

Section SolverSign.

Variables eigh1 eigh2 : Mat3 -> Vec3 * Mat3.

(** X16: the transform does not depend on the sign the eigensolver gives
    its first eigenvector, as long as the third entry of that vector is not
    zero. *)
Theorem alignment_ignores_solver_sign (points : list Vec3) :
  eigenvector0 eigh2 points = np.neg (eigenvector0 eigh1 points) ->
  c2 (eigenvector0 eigh1 points) <> 0 ->
  normal_vector eigh2 points = normal_vector eigh1 points /\
  computeAlignment eigh2 points = computeAlignment eigh1 points.
Proof.
  intros Hneg Hz.
  assert (Hn : normal_vector eigh2 points = normal_vector eigh1 points).
  { unfold normal_vector. rewrite Hneg.
    destruct (eigenvector0 eigh1 points) as [a b c]. cbn [c2] in Hz.
    unfold canonicalize. cbn [c2 np.neg].
    destruct (Rlt_dec (- c) 0), (Rlt_dec c 0); try lra.
    - vec3_ext; ring.
    - reflexivity. }
  split; [exact Hn |].
  unfold computeAlignment, R_matrix, R_. rewrite Hn. reflexivity.
Qed.

(** X17: when the third entry of the first eigenvector is zero (a mesh
    standing upright), no sign is fixed: the normal is the eigenvector as
    the solver gave it, so the opposite solver sign gives the opposite
    normal. *)
Theorem upright_normal_keeps_solver_sign (points : list Vec3) :
  eigenvector0 eigh2 points = np.neg (eigenvector0 eigh1 points) ->
  c2 (eigenvector0 eigh1 points) = 0 ->
  normal_vector eigh1 points = eigenvector0 eigh1 points /\
  normal_vector eigh2 points = np.neg (normal_vector eigh1 points).
Proof.
  intros Hneg Hz. unfold normal_vector. rewrite Hneg.
  destruct (eigenvector0 eigh1 points) as [a b c]. cbn [c2] in Hz. subst c.
  unfold canonicalize. cbn [c2 np.neg].
  destruct (Rlt_dec (- 0) 0), (Rlt_dec 0 0); try lra.
  split; reflexivity.
Qed.

End SolverSign.

(** ** The rotation stage for any pair of vectors *)

(** X18: for any two unit vectors whose cross product does not vanish, the
    rotation stage returns a proper rotation (orthonormal on both sides,
    determinant +1) that sends the first vector to the second and whose
    transpose sends the second back to the first. *)
Theorem rotation_any_target (n t : Vec3) :
  np.dot n n = 1 -> np.dot t t = 1 ->
  np.linalg_norm (np.cross n t) <> 0 ->
  np.matvec (rotation n t) n = t /\
  np.matvec (np.transpose (rotation n t)) t = n /\
  np.matmul (np.transpose (rotation n t)) (rotation n t) = np.eye3 /\
  np.matmul (rotation n t) (np.transpose (rotation n t)) = np.eye3 /\
  np.det (rotation n t) = 1.
Proof.
  intros Hn Ht Hs.
  destruct (rotation_unit_nonparallel n t Hn Ht Hs) as (Hmap & Horth & Hdet).
  split; [exact Hmap |].
  split; [rewrite <- Hmap at 2; apply orthonormal_inverse; exact Horth |].
  split; [exact Horth |]. split; [| exact Hdet].
  pose proof (rodrigues_factor n t Hn Ht Hs) as Hk.
  rewrite (rotation_rodrigues n t Hs).
  set (k := (1 - np.dot n t) / np.linalg_norm (np.cross n t) ^ 2) in *.
  rewrite rodrigues_form_gram_r.
  replace (np.dot (np.cross n t) (np.cross n t))
    with (1 - np.dot n t * np.dot n t)
    by (rewrite dot_cross_cross, Hn, Ht; ring).
  replace (2 * k - 1 - k * k * (1 - np.dot n t * np.dot n t)) with 0.
  - apply madd_mscale_zero.
  - clearbody k. revert Hk. generalize (np.dot n t). intros c Hk. nsatz.
Qed.

(** X19: the rotation leaves the cross product of its two arguments, its
    axis, where it is. *)
Theorem rotation_fixes_axis (n t : Vec3) :
  np.matvec (rotation n t) (np.cross n t) = np.cross n t.
Proof.
  destruct (Req_dec_T (np.linalg_norm (np.cross n t)) 0) as [Hs | Hs].
  - rewrite (rotation_aligned n t Hs). apply matvec_eye3.
  - rewrite (rotation_rodrigues n t Hs). apply rodrigues_form_axis.
Qed.

(** X20: exchanging the two vectors transposes the rotation: the rotation
    from t to n is the transpose of the rotation from n to t. *)
Theorem rotation_swap (n t : Vec3) :
  rotation t n = np.transpose (rotation n t).
Proof.
  assert (Hnorm : np.linalg_norm (np.cross t n) = np.linalg_norm (np.cross n t)).
  { rewrite cross_swap. apply linalg_norm_neg. }
  destruct (Req_dec_T (np.linalg_norm (np.cross n t)) 0) as [Hs | Hs].
  - rewrite (rotation_aligned n t Hs), rotation_aligned by (rewrite Hnorm; exact Hs).
    reflexivity.
  - rewrite (rotation_rodrigues n t Hs).
    rewrite rotation_rodrigues by (rewrite Hnorm; exact Hs).
    rewrite Hnorm, (dot_comm t n), cross_swap. apply rodrigues_form_neg.
Qed.

(** ** The further properties at the sample inputs *)

Lemma eigenvector0_square_z5 :
  eigenvector0 eigh_squares square_z5 = mkVec3 0 0 1.
Proof. unfold eigenvector0. rewrite eigh_squares_z5. reflexivity. Qed.

Lemma eigenvector0_square_x3 :
  eigenvector0 eigh_squares square_x3 = mkVec3 1 0 0.
Proof. unfold eigenvector0. rewrite eigh_squares_x3. reflexivity. Qed.

Lemma eigenvector0_flipped (points : list Vec3) :
  eigenvector0 eigh_squares_flipped points =
  np.neg (eigenvector0 eigh_squares points).
Proof.
  unfold eigenvector0, eigh_squares_flipped. cbn [snd].
  destruct (snd (eigh_squares (cov points))) as [[] [] []]. reflexivity.
Qed.

Lemma world_points_chunk_square_x3 :
  world_points chunk_square_x3 (map mkVertex square_x3) = square_x3.
Proof. apply world_points_Diag1. Qed.

Lemma no_mesh_raises_witness :
  script eigh_squares chunk_no_models = (chunk_no_models, NoMeshError).
Proof. apply (no_mesh_raises eigh_squares chunk_no_models). left. reflexivity. Defined.


Lemma script_keeps_affinity_witness :
  Metashape.affine
    (transform_matrix (fst (script_raising eigh_try_fails chunk_square_z5))).
Proof.
  apply (script_keeps_affinity eigh_try_fails chunk_square_z5). reflexivity.
Defined.

Lemma script_reads_first_model_witness :
  snd (script eigh_squares chunk_square_x3) =
  snd (script eigh_squares chunk_square_x3_two_models).
Proof.
  apply (script_reads_first_model eigh_squares chunk_square_x3
           chunk_square_x3_two_models (mkModel (map mkVertex square_x3))
           [] [mkModel (map mkVertex square_z5)]); reflexivity.
Defined.

Lemma final_centroid_is_origin_witness :
  snd (script eigh_squares chunk_square_z5) = Completed np.zeros3.
Proof.
  apply (final_centroid_is_origin eigh_squares chunk_square_z5
           (mkModel (map mkVertex square_z5)) []).
  - reflexivity.
  - simpl. repeat constructor.
  - reflexivity.
Defined.

Lemma world_points_after_script_square_x3 :
  world_points (fst (script eigh_squares chunk_square_x3)) (map mkVertex square_x3) =
  aligned_points eigh_squares square_x3.
Proof.
  rewrite (script_completed eigh_squares chunk_square_x3
             (mkModel (map mkVertex square_x3)) [])
    by (reflexivity || (simpl; repeat constructor)).
  cbn [fst vertices].
  rewrite (world_points_updated chunk_square_x3 _ _ affine_Diag1).
  rewrite world_points_chunk_square_x3. reflexivity.
Qed.

Lemma script_twice_witness :
  fst (script eigh_squares (fst (script eigh_squares chunk_square_x3))) =
  fst (script eigh_squares chunk_square_x3).
Proof.
  apply (script_twice eigh_squares chunk_square_x3
           (mkModel (map mkVertex square_x3)) []).
  - reflexivity.
  - simpl. repeat constructor.
  - reflexivity.
  - cbn [vertices]. rewrite world_points_chunk_square_x3.
    exact eigh_result_square_x3.
  - cbn [vertices]. rewrite world_points_chunk_square_x3, eigh_squares_x3.
    cbn [fst c0 c1]. lra.
  - cbn [vertices]. rewrite world_points_after_script_square_x3.
    exact eigh_result_aligned_square_x3.
Defined.

Lemma alignment_keeps_distances_witness :
  let M := computeAlignment eigh_squares square_x3 in
  let p := mkVec3 3 0 0 in
  let q := mkVec3 3 1 1 in
  np.dot (np.sub (Metashape.mulp M p) (Metashape.mulp M q))
         (np.sub (Metashape.mulp M p) (Metashape.mulp M q)) =
  np.dot (np.sub p q) (np.sub p q).
Proof.
  apply (alignment_keeps_distances eigh_squares square_x3 (mkVec3 3 0 0)
           (mkVec3 3 1 1) length_square_x3 eigh_result_square_x3).
Defined.

Lemma alignment_round_trip_witness :
  np.add (np.matvec (np.transpose (R_ eigh_squares square_x3))
            (Metashape.mulp (computeAlignment eigh_squares square_x3) (mkVec3 3 1 0)))
         (centroid square_x3) = mkVec3 3 1 0.
Proof.
  apply (alignment_round_trip eigh_squares square_x3 (mkVec3 3 1 0)
           length_square_x3 eigh_result_square_x3).
Defined.

Lemma aligned_height_is_plane_distance_witness :
  c2 (Metashape.mulp (computeAlignment eigh_squares square_x3) (mkVec3 4 0 0)) =
  np.dot (normal_vector eigh_squares square_x3)
         (np.sub (mkVec3 4 0 0) (centroid square_x3)).
Proof.
  apply (aligned_height_is_plane_distance eigh_squares square_x3 (mkVec3 4 0 0)
           length_square_x3 eigh_result_square_x3).
Defined.

Lemma aligned_heights_sum_witness :
  fold_right Rplus 0
    (map (fun q => c2 q * c2 q) (aligned_points eigh_squares square_x3)) =
  (INR (length square_x3) - 1) * c0 (fst (eigh_squares (cov square_x3))).
Proof.
  apply (aligned_heights_sum eigh_squares square_x3
           length_square_x3 eigh_result_square_x3).
Defined.

Lemma coplanar_points_lie_flat_witness :
  c2 (Metashape.mulp (computeAlignment eigh_squares square_x3) (mkVec3 3 0 0)) = 0.
Proof.
  apply (coplanar_points_lie_flat eigh_squares square_x3
           length_square_x3 eigh_result_square_x3).
  - rewrite eigh_squares_x3. reflexivity.
  - left. reflexivity.
Defined.

Lemma covariance_is_positive_semidefinite_witness :
  0 <= c0 (fst (eigh_squares (cov square_z5))).
Proof.
  apply (covariance_is_positive_semidefinite eigh_squares square_z5
           length_square_z5 eigh_result_square_z5).
Defined.

Lemma alignment_of_shifted_points_witness :
  R_ eigh_squares (map (fun p => np.add p (mkVec3 1 2 3)) square_z5) =
  R_ eigh_squares square_z5.
Proof.
  apply (alignment_of_shifted_points eigh_squares square_z5 (mkVec3 1 2 3)
           length_square_z5).
Defined.

Lemma vertical_normal_needs_no_rotation_witness :
  computeAlignment eigh_squares square_z5 = T square_z5.
Proof.
  apply (vertical_normal_needs_no_rotation eigh_squares square_z5);
    rewrite eigenvector0_square_z5; reflexivity.
Defined.

Lemma alignment_ignores_solver_sign_witness :
  computeAlignment eigh_squares_flipped square_z5 =
  computeAlignment eigh_squares square_z5.
Proof.
  apply (alignment_ignores_solver_sign eigh_squares eigh_squares_flipped square_z5).
  - apply eigenvector0_flipped.
  - rewrite eigenvector0_square_z5. cbn [c2]. lra.
Defined.

Lemma upright_normal_keeps_solver_sign_witness :
  normal_vector eigh_squares_flipped square_x3 =
  np.neg (normal_vector eigh_squares square_x3).
Proof.
  apply (upright_normal_keeps_solver_sign eigh_squares eigh_squares_flipped square_x3).
  - apply eigenvector0_flipped.
  - rewrite eigenvector0_square_x3. reflexivity.
Defined.

Lemma rotation_any_target_witness :
  np.matvec (rotation (mkVec3 1 0 0) (mkVec3 0 1 0)) (mkVec3 1 0 0) = mkVec3 0 1 0.
Proof.
  apply (rotation_any_target (mkVec3 1 0 0) (mkVec3 0 1 0)).
  - np_red. ring.
  - np_red. ring.
  - intros H. apply linalg_norm_zero_dot in H. np_red. lra.
Defined.
